(** * snetlog: a shallow embedding of [log.go] and its verified properties

    The package is a small multi-sink logger.  A [Log] value routes a
    message to a remote client, to the console and to an in-memory buffer
    that a background task drains to a file once per second.

    The embedding follows the Go source function by function:
    - [formats], [formataTimePadraoLog]: pure functions;
    - [output], the fourteen facade methods and one iteration of the
      [flushLogFile] loop: computations in a small state monad [M] over a
      [World] (the [Log] object reached through the receiver pointer, the
      file system, the count of clock readings and the trace of observable
      events).  A [sync.Mutex] is a boolean; [Lock] on a held mutex never
      returns, which the monad records as [Blocked]. *)

From Stdlib Require Import ZArith String Ascii List Lia Bool.
From stdpp Require Import base gmap strings.

Local Open Scope string_scope.
Local Open Scope Z_scope.

(** ** Severities (package [cloud.google.com/go/logging]) *)

Module logging.

(** [type Severity int]: the numeric values are those of the Google Cloud
    logging package, which the source imports. *)
Definition Severity := Z.

Definition Default   : Severity := 0.
Definition Debug     : Severity := 100.
Definition Info      : Severity := 200.
Definition Notice    : Severity := 300.
Definition Warning   : Severity := 400.
Definition Error     : Severity := 500.
Definition Critical  : Severity := 600.
Definition Alert     : Severity := 700.
Definition Emergency : Severity := 800.

End logging.

(** ** The tag table *)

(** [var formats = map[logging.Severity]string{...}] *)
Definition formats : gmap Z string :=
  list_to_map
    [ (logging.Debug,     "[TRACE] ");
      (logging.Info,      "[INFO] ");
      (logging.Notice,    "[NOTICE] ");
      (logging.Warning,   "[WARN] ");
      (logging.Error,     "[ERROR] ");
      (logging.Alert,     "[ALERT] ");
      (logging.Emergency, "[EMERGENCY] ") ].

(** [formats[severity]]: indexing a Go map with an absent key yields the
    zero value of the element type, here the empty string. *)
Definition formats_at (severity : logging.Severity) : string :=
  default "" (formats !! severity).

(** ** Integer directives of package [fmt] *)

Module fmt_int.

(** ['0' + d] for a digit value [d]. *)
Definition digit (d : Z) : ascii := ascii_of_nat (48 + Z.to_nat d).

(** The digit loop of [fmt.fmtInteger] in base 10: digits are produced
    from the least significant one and stored right to left.  [fuel]
    bounds the number of iterations. *)
Fixpoint digits_loop (fuel : nat) (u : Z) (acc : string) : string :=
  match fuel with
  | O => String (digit (u mod 10)) acc
  | S fuel' =>
      if 10 <=? u
      then digits_loop fuel' (u / 10) (String (digit (u mod 10)) acc)
      else String (digit u) acc
  end.

(** Decimal digits of a non-negative integer. *)
Definition digits (u : Z) : string :=
  digits_loop (Z.to_nat (Z.log2 u)) u "".

Fixpoint zeros (n : nat) : string :=
  match n with
  | O => ""
  | S n' => String "0" (zeros n')
  end.

(** Left padding with ['0'] up to [prec] digits. *)
Definition zero_pad (prec : nat) (s : string) : string :=
  zeros (prec - String.length s) +:+ s.

(** The directive [%d]. *)
Definition d (z : Z) : string :=
  if z <? 0 then "-" +:+ digits (- z) else digits z.

(** The directive [%0wd]: the width counts the sign, so a negative
    number gets one digit less of padding. *)
Definition d0 (w : nat) (z : Z) : string :=
  if z <? 0
  then "-" +:+ zero_pad (w - 1) (digits (- z))
  else zero_pad w (digits z).

End fmt_int.

(** ** Instants (package [time]) *)

(** What [formataTimePadraoLog] reads of a [time.Time], namely the results of
    its accessors [Day], [Month], [Year], [Hour], [Minute], [Second] and
    [Nanosecond]. *)
Record Time := mkTime {
  Year : Z;
  Month : Z;
  Day : Z;
  Hour : Z;
  Minute : Z;
  Second : Z;
  Nanosecond : Z
}.

(** The ranges the accessors of package [time] guarantee; the year is any
    integer. *)
Definition valid_time (t : Time) : Prop :=
  1 <= Month t <= 12 /\ 1 <= Day t <= 31 /\
  0 <= Hour t <= 23 /\ 0 <= Minute t <= 59 /\ 0 <= Second t <= 59 /\
  0 <= Nanosecond t <= 999999999.

(** [fmt.Sprintf("%02d/%02d/%04d %02d:%02d:%02d.%d", t.Day(), t.Month(),
    t.Year(), t.Hour(), t.Minute(), t.Second(), t.Nanosecond()/1e6)].
    The last directive is [%d], without width.  Go's integer division
    truncates towards zero, as [Z.quot] does. *)
Definition formataTimePadraoLog (t : Time) : string :=
  fmt_int.d0 2 (Day t) +:+ "/" +:+
  fmt_int.d0 2 (Month t) +:+ "/" +:+
  fmt_int.d0 4 (Year t) +:+ " " +:+
  fmt_int.d0 2 (Hour t) +:+ ":" +:+
  fmt_int.d0 2 (Minute t) +:+ ":" +:+
  fmt_int.d0 2 (Second t) +:+ "." +:+
  fmt_int.d (Z.quot (Nanosecond t) 1000000).

(** ** Arguments and the printing functions of package [fmt] *)

(** The dynamic values passed as [args ...interface{}]: strings, integers,
    booleans and the nil interface. *)
Inductive value :=
| VString (s : string)
| VInt (z : Z)
| VBool (b : bool)
| VNil.

Module fmt.

(** [arg != nil && reflect.TypeOf(arg).Kind() == reflect.String] *)
Definition isString (arg : value) : bool :=
  match arg with
  | VString _ => true
  | _ => false
  end.

(** [printArg(arg, 'v')]: the default representation of a value. *)
Definition printArg (arg : value) : string :=
  match arg with
  | VString s => s
  | VInt z => fmt_int.d z
  | VBool true => "true"
  | VBool false => "false"
  | VNil => "<nil>"
  end.

(** [doPrint]: the loop of [fmt.Sprint] over its operands.  A space is
    written before an operand when it is not the first one and neither it
    nor the previous operand is a string. *)
Fixpoint doPrint (argNum : nat) (prevString : bool) (a : list value) : string :=
  match a with
  | [] => ""
  | arg :: rest =>
      (if (0 <? argNum)%nat && negb (isString arg) && negb prevString
       then " " else "") +:+
      printArg arg +:+ doPrint (S argNum) (isString arg) rest
  end.

Definition Sprint (a : list value) : string := doPrint 0 false a.

(** No byte of the string is ['%']. *)
Fixpoint percent_free (s : string) : bool :=
  match s with
  | EmptyString => true
  | String c s' => negb (Ascii.eqb c "%") && percent_free s'
  end.

(** [fmt.Sprintf] is used by the source as a black box.  The development
    relies on one fact about it: a format without ['%'] and without
    operands is rendered verbatim. *)
Class Formatter := {
  Sprintf : string -> list value -> string;
  Sprintf_verbatim : forall s, percent_free s = true -> Sprintf s [] = s
}.

End fmt.

(** ** The logger object and the world around it *)

Module logging_client.
(** [*logging.Logger]: a handle on the remote client. *)
Inductive Logger := Client (id : nat).
End logging_client.

(** [type Log struct].  A mutex is [true] while it is held; a pointer field
    is [None] when nil.  The buffer holds the bytes written and not yet
    reset. *)
Record Log := mkLog {
  enableConsole : bool;
  enableFile : bool;
  enableStackDriver : bool;
  muxConsole : bool;
  muxFile : bool;
  fileName : string;
  bufferFile : option string;
  logStackdriver : option logging_client.Logger
}.

Definition set_muxConsole (b : bool) (l : Log) : Log :=
  mkLog (enableConsole l) (enableFile l) (enableStackDriver l)
        b (muxFile l) (fileName l) (bufferFile l) (logStackdriver l).

Definition set_muxFile (b : bool) (l : Log) : Log :=
  mkLog (enableConsole l) (enableFile l) (enableStackDriver l)
        (muxConsole l) b (fileName l) (bufferFile l) (logStackdriver l).

Definition set_bufferFile (buf : option string) (l : Log) : Log :=
  mkLog (enableConsole l) (enableFile l) (enableStackDriver l)
        (muxConsole l) (muxFile l) (fileName l) buf (logStackdriver l).

(** The file system as [ioutil.WriteFile] sees it: the content of each
    existing file, and the paths that cannot be opened for writing. *)
Record FS := mkFS {
  files : gmap string string;
  denied : gset string
}.

Inductive mutex := MuxConsole | MuxFile.

(** What the package does to the outside, in program order. *)
Inductive event :=
| EvLock (m : mutex)
| EvUnlock (m : mutex)
| EvStackdriver (severity : logging.Severity) (payload : string)
| EvLogPrintf (s : string)
| EvStdout (s : string)
| EvBufferWrite (s : string)
| EvBufferReset
| EvWriteFile (name data : string) (ok : bool).

(** [clock n] is the result of the [n]-th call of [time.Now]. *)
Record World := mkWorld {
  w_log : Log;
  w_fs : FS;
  w_clock : nat -> Time;
  w_reads : nat;
  w_trace : list event
}.

Definition set_log (l : Log) (w : World) : World :=
  mkWorld l (w_fs w) (w_clock w) (w_reads w) (w_trace w).

Definition set_fs (fs : FS) (w : World) : World :=
  mkWorld (w_log w) fs (w_clock w) (w_reads w) (w_trace w).

Definition emit (e : event) (w : World) : World :=
  mkWorld (w_log w) (w_fs w) (w_clock w) (w_reads w) (w_trace w ++ [e]).

(** ** The monad of the package's code *)

(** A computation either returns in a new world or stops for ever at a
    [Lock] of a held mutex. *)
Inductive Outcome (A : Type) :=
| Ret (a : A) (w : World)
| Blocked (w : World).
Arguments Ret {A} a w.
Arguments Blocked {A} w.

Definition M (A : Type) : Type := World -> Outcome A.

#[global] Instance M_ret : MRet M := fun A a w => Ret a w.
#[global] Instance M_bind : MBind M := fun A B f m w =>
  match m w with
  | Ret a w' => f a w'
  | Blocked w' => Blocked w'
  end.

Definition get_log : M Log := fun w => Ret (w_log w) w.

Definition is_held (m : mutex) (l : Log) : bool :=
  match m with
  | MuxConsole => muxConsole l
  | MuxFile => muxFile l
  end.

Definition set_held (m : mutex) (b : bool) (l : Log) : Log :=
  match m with
  | MuxConsole => set_muxConsole b l
  | MuxFile => set_muxFile b l
  end.

(** [mu.Lock()] *)
Definition Lock (m : mutex) : M unit := fun w =>
  if is_held m (w_log w)
  then Blocked w
  else Ret tt (emit (EvLock m) (set_log (set_held m true (w_log w)) w)).

(** [mu.Unlock()]; the source only unlocks a mutex it has locked. *)
Definition Unlock (m : mutex) : M unit := fun w =>
  Ret tt (emit (EvUnlock m) (set_log (set_held m false (w_log w)) w)).

(** [time.Now()] *)
Definition time_Now : M Time := fun w =>
  Ret (w_clock w (w_reads w))
      (mkWorld (w_log w) (w_fs w) (w_clock w) (S (w_reads w)) (w_trace w)).

Definition emitM (e : event) : M unit := fun w => Ret tt (emit e w).

(** [l.bufferFile.WriteString(s)] on a non-nil buffer. *)
Definition bufferFile_WriteString (s : string) : M unit := fun w =>
  Ret tt (emit (EvBufferWrite s)
            (set_log (set_bufferFile
                        (option_map (fun b => b +:+ s) (bufferFile (w_log w)))
                        (w_log w)) w)).

(** [log.bufferFile.Reset()] on a non-nil buffer. *)
Definition bufferFile_Reset : M unit := fun w =>
  Ret tt (emit EvBufferReset
            (set_log (set_bufferFile
                        (option_map (fun _ => "") (bufferFile (w_log w)))
                        (w_log w)) w)).

(** [ioutil.WriteFile(name, data, perm)]: the file is opened with
    [O_WRONLY|O_CREATE|O_TRUNC], so a successful call leaves exactly [data]
    in it.  The result is the error, [false] for nil. *)
Definition ioutil_WriteFile (name data : string) : M bool := fun w =>
  if bool_decide (name ∈ denied (w_fs w))
  then Ret true (emit (EvWriteFile name data false) w)
  else Ret false
         (emit (EvWriteFile name data true)
            (set_fs (mkFS (<[name := data]> (files (w_fs w))) (denied (w_fs w))) w)).

(** The standard logger of package [log] receives the rendered text; by
    default it writes to standard error, after a date and time prefix of its
    own, and ends the text with a newline. *)
Definition log_Printf `{fmt.Formatter} (format : string) (args : list value) : M unit :=
  emitM (EvLogPrintf (fmt.Sprintf format args)).

(** [fmt.Printf]: one write of the rendered text to [os.Stdout]. *)
Definition fmt_Printf `{fmt.Formatter} (format : string) (args : list value) : M unit :=
  emitM (EvStdout (fmt.Sprintf format args)).

(** [l.logStackdriver.Log(logging.Entry{Severity: severity, Payload: payload})] *)
Definition logStackdriver_Log (severity : logging.Severity) (payload : string) : M unit :=
  emitM (EvStackdriver severity payload).

Definition non_nil {A : Type} (p : option A) : bool :=
  match p with
  | Some _ => true
  | None => false
  end.

(** The Go string ["\n"]. *)
Definition newline : string := String (ascii_of_nat 10) EmptyString.

(** ** The dispatch routine and the facade *)

Section Dispatch.

Context `{F : fmt.Formatter}.

(** [func (l *Log) output(severity logging.Severity, format string,
    args ...interface{})] *)
Definition output (severity : logging.Severity) (format : string)
           (args : list value) : M unit :=
  l ← get_log;
  (if enableStackDriver l && non_nil (logStackdriver l) then
     if negb (String.eqb format "") then
       logStackdriver_Log severity (fmt.Sprintf format args)
     else
       if non_nil (logStackdriver l) then
         logStackdriver_Log severity (fmt.Sprint args)
       else mret tt
   else mret tt);;
  l ← get_log;
  (if enableConsole l then
     Lock MuxConsole;;
     log_Printf (formats_at severity) [];;
     t ← time_Now;
     fmt_Printf (formataTimePadraoLog t +:+ ": ") [];;
     (if String.eqb format "" then
        fmt_Printf (fmt.Sprint args) []
      else
        fmt_Printf format args);;
     fmt_Printf newline [];;
     Unlock MuxConsole
   else mret tt);;
  l ← get_log;
  (if enableFile l && negb (String.eqb (fileName l) "") && non_nil (bufferFile l) then
     Lock MuxFile;;
     bufferFile_WriteString (formats_at severity);;
     t ← time_Now;
     bufferFile_WriteString (formataTimePadraoLog t +:+ ": ");;
     (if String.eqb format "" then
        bufferFile_WriteString (fmt.Sprint args)
      else
        bufferFile_WriteString (fmt.Sprintf format args));;
     bufferFile_WriteString newline;;
     Unlock MuxFile
   else mret tt).

Definition Trace (args : list value) : M unit :=
  output logging.Debug "" args.

Definition Tracef (format : string) (args : list value) : M unit :=
  output logging.Debug format args.

Definition Info (args : list value) : M unit :=
  output logging.Info "" args.

Definition Infof (format : string) (args : list value) : M unit :=
  output logging.Debug format args.

Definition Notice (args : list value) : M unit :=
  output logging.Notice "" args.

Definition Noticef (format : string) (args : list value) : M unit :=
  output logging.Notice format args.

Definition Erro (args : list value) : M unit :=
  output logging.Error "" args.

Definition Errof (format : string) (args : list value) : M unit :=
  output logging.Error format args.

Definition Warn (args : list value) : M unit :=
  output logging.Warning "" args.

Definition Warnf (format : string) (args : list value) : M unit :=
  output logging.Warning format args.

Definition Alert (args : list value) : M unit :=
  output logging.Alert "" args.

Definition Alertf (format : string) (args : list value) : M unit :=
  output logging.Alert format args.

Definition Emergency (args : list value) : M unit :=
  output logging.Emergency "" args.

Definition Emergencyf (format : string) (args : list value) : M unit :=
  output logging.Emergency format args.

(** The method set of [type Logger interface]. *)
Inductive method :=
| MTrace | MTracef | MInfo | MInfof | MNotice | MNoticef | MWarn | MWarnf
| MErro | MErrof | MAlert | MAlertf | MEmergency | MEmergencyf.

(** A call [l.m(args...)] of a plain method or [l.m(format, args...)] of a
    formatted one; a plain method has no format parameter. *)
Definition call (m : method) (format : string) (args : list value) : M unit :=
  match m with
  | MTrace => Trace args
  | MTracef => Tracef format args
  | MInfo => Info args
  | MInfof => Infof format args
  | MNotice => Notice args
  | MNoticef => Noticef format args
  | MWarn => Warn args
  | MWarnf => Warnf format args
  | MErro => Erro args
  | MErrof => Errof format args
  | MAlert => Alert args
  | MAlertf => Alertf format args
  | MEmergency => Emergency args
  | MEmergencyf => Emergencyf format args
  end.

End Dispatch.

(** ** The background flush *)

(** The body of the [case <-ticker.C:] branch of [flushLogFile]: what one
    tick of the one-second ticker runs.  The error of [WriteFile] is dropped.
    [Unlock] is inside the [if log.bufferFile != nil] block. *)
Definition flushLogFile_tick : M unit :=
  Lock MuxFile;;
  log ← get_log;
  match bufferFile log with
  | Some buf =>
      (if (0 <? String.length buf)%nat && negb (String.eqb (fileName log) "") then
         _ ← ioutil_WriteFile (fileName log) buf; mret tt
       else mret tt);;
      bufferFile_Reset;;
      Unlock MuxFile
  | None => mret tt
  end.

(** [flushLogFile] loops for ever; [flushLogFile n] is its first [n] ticks. *)
Fixpoint flushLogFile (n : nat) : M unit :=
  match n with
  | O => mret tt
  | S n' => flushLogFile_tick;; flushLogFile n'
  end.

(** ** Constructors *)

Module FileConfig.
Record t := mk { FileName : string }.
End FileConfig.

Module ConsoleConfig.
Record t := mk { FileName : string }.
End ConsoleConfig.

(** [NewLogFile(config *FileConfig)]: [None] is the panic of dereferencing a
    nil [config].  The buffer starts empty (capacity 3072).  The call also
    starts the flush task, [go flushLogFile(log)]; see [run]. *)
Definition NewLogFile (config : option FileConfig.t) : option Log :=
  match config with
  | None => None
  | Some c =>
      Some {| enableConsole := false;
              enableFile := true;
              enableStackDriver := false;
              muxConsole := false;
              muxFile := false;
              fileName := FileConfig.FileName c;
              bufferFile := Some "";
              logStackdriver := None |}
  end.

(** [NewLogConsole(config *ConsoleConfig)]: [config] is not read. *)
Definition NewLogConsole (config : option ConsoleConfig.t) : Log :=
  {| enableConsole := true;
     enableFile := false;
     enableStackDriver := false;
     muxConsole := false;
     muxFile := false;
     fileName := "";
     bufferFile := None;
     logStackdriver := None |}.

(** ** A process using one logger *)

(** What happens to a logger during a run: calls of its methods, and ticks of
    the flush task when one was started. *)
Inductive action :=
| ACall (m : method) (format : string) (args : list value)
| ATick.

Section Run.

Context `{F : fmt.Formatter}.

(** [flusher] tells whether [go flushLogFile(log)] was executed for the
    logger, which only [NewLogFile] does. *)
Definition run_action (flusher : bool) (a : action) : M unit :=
  match a with
  | ACall m format args => call m format args
  | ATick => if flusher then flushLogFile_tick else mret tt
  end.

Fixpoint run (flusher : bool) (acts : list action) : M unit :=
  match acts with
  | [] => mret tt
  | a :: rest => run_action flusher a;; run flusher rest
  end.

End Run.

Definition empty_fs : FS := mkFS ∅ ∅.

Definition start (l : Log) (fs : FS) (clock : nat -> Time) : World :=
  mkWorld l fs clock 0 [].

(** ** A model of [fmt.Sprintf]

    The verbs [%v], [%s], [%d], [%t], [%T] and [%%] applied to the values of
    [value], with the error texts of package [fmt] for a missing operand, a
    verb that does not fit its operand, a lone ['%'] at the end and operands
    left over.  Flags, width, precision and argument indexes are outside
    this model; no format used below has any. *)
Module fmt_model.

Definition typeName (arg : value) : string :=
  match arg with
  | VString _ => "string"
  | VInt _ => "int"
  | VBool _ => "bool"
  | VNil => "<nil>"
  end.

(** [type=value], or [<nil>] for the nil interface. *)
Definition typed (arg : value) : string :=
  match arg with
  | VNil => "<nil>"
  | _ => typeName arg +:+ "=" +:+ fmt.printArg arg
  end.

(** [badVerb]: [%!verb(type=value)] *)
Definition badVerb (verb : ascii) (arg : value) : string :=
  "%!" +:+ String verb "(" +:+ typed arg +:+ ")".

Definition printVerb (verb : ascii) (arg : value) : string :=
  if Ascii.eqb verb "T" then typeName arg else
  match arg with
  | VNil => if Ascii.eqb verb "v" then "<nil>" else badVerb verb arg
  | VString s =>
      if Ascii.eqb verb "v" || Ascii.eqb verb "s" then s else badVerb verb arg
  | VInt z =>
      if Ascii.eqb verb "v" || Ascii.eqb verb "d" then fmt_int.d z
      else badVerb verb arg
  | VBool _ =>
      if Ascii.eqb verb "v" || Ascii.eqb verb "t" then fmt.printArg arg
      else badVerb verb arg
  end.

Fixpoint commaSep (l : list string) : string :=
  match l with
  | [] => ""
  | [x] => x
  | x :: rest => x +:+ ", " +:+ commaSep rest
  end.

(** [%!(EXTRA type=value, ...)] when operands are left at the end. *)
Definition extra (a : list value) : string :=
  match a with
  | [] => ""
  | _ => "%!(EXTRA " +:+ commaSep (map typed a) +:+ ")"
  end.

(** [doPrintf] *)
Fixpoint doPrintf (format : string) (a : list value) : string :=
  match format with
  | EmptyString => extra a
  | String c rest =>
      if Ascii.eqb c "%" then
        match rest with
        | EmptyString => "%!(NOVERB)" +:+ extra a
        | String verb rest' =>
            if Ascii.eqb verb "%" then String "%" (doPrintf rest' a)
            else
              match a with
              | [] => "%!" +:+ String verb "(MISSING)" +:+ doPrintf rest' []
              | arg :: a' => printVerb verb arg +:+ doPrintf rest' a'
              end
        end
      else String c (doPrintf rest a)
  end.

Lemma doPrintf_verbatim (s : string) :
  fmt.percent_free s = true -> doPrintf s [] = s.
Proof.
  induction s as [| c s IH]; simpl; [reflexivity |].
  destruct (Ascii.eqb c "%"); simpl; [discriminate |].
  intros H. now rewrite IH.
Qed.

#[global] Instance formatter : fmt.Formatter :=
  {| fmt.Sprintf := doPrintf; fmt.Sprintf_verbatim := doPrintf_verbatim |}.

End fmt_model.

(** * Properties *)

(** ** Strings *)

Lemma string_app_assoc (a b c : string) : (a +:+ b) +:+ c = a +:+ b +:+ c.
Proof.
  induction a as [| x a IH]; [reflexivity |].
  change (String x ((a +:+ b) +:+ c) = String x (a +:+ b +:+ c)).
  now rewrite IH.
Qed.

Lemma string_app_nil_r (a : string) : a +:+ "" = a.
Proof.
  induction a as [| x a IH]; [reflexivity |].
  change (String x (a +:+ "") = String x a). now rewrite IH.
Qed.

Lemma string_app_cons (x : ascii) (a b : string) :
  String x a +:+ b = String x (a +:+ b).
Proof. reflexivity. Qed.

Lemma string_app_nil_l (a : string) : "" +:+ a = a.
Proof. reflexivity. Qed.

Lemma string_length_app (a b : string) :
  String.length (a +:+ b) = (String.length a + String.length b)%nat.
Proof.
  induction a as [| x a IH]; [reflexivity |].
  rewrite string_app_cons. simpl. now rewrite IH.
Qed.

Lemma percent_free_app (a b : string) :
  fmt.percent_free (a +:+ b) = fmt.percent_free a && fmt.percent_free b.
Proof.
  induction a as [| x a IH]; [reflexivity |].
  rewrite string_app_cons. simpl. rewrite IH. now rewrite andb_assoc.
Qed.

(** ** The tag table *)

Lemma formats_at_cases (s : logging.Severity) :
  In (formats_at s)
     ["[TRACE] "; "[INFO] "; "[NOTICE] "; "[WARN] "; "[ERROR] "; "[ALERT] ";
      "[EMERGENCY] "; ""].
Proof.
  unfold formats_at, formats. simpl list_to_map.
  repeat (rewrite lookup_insert; case_decide; [simpl; tauto |]).
  rewrite lookup_empty. simpl. tauto.
Qed.

Lemma formats_at_percent_free (s : logging.Severity) :
  fmt.percent_free (formats_at s) = true.
Proof.
  pose proof (formats_at_cases s) as H. simpl in H.
  repeat (destruct H as [<- | H]; [reflexivity |]). destruct H.
Qed.

(** ** Decimal rendering *)

Module fmt_int_facts.
Import fmt_int.

Lemma digit_not_percent (d : Z) : d < 10 -> Ascii.eqb (digit d) "%" = false.
Proof.
  intros H. unfold digit.
  assert (Hn : (Z.to_nat d < 10)%nat) by lia.
  revert Hn. generalize (Z.to_nat d) as n. intros n Hn.
  do 10 (destruct n as [| n]; [reflexivity |]). lia.
Qed.

Lemma digits_loop_percent_free (fuel : nat) :
  forall u acc,
    fmt.percent_free acc = true ->
    fmt.percent_free (digits_loop fuel u acc) = true.
Proof.
  induction fuel as [| fuel IH]; intros u acc Hacc; cbn [digits_loop].
  - cbn [fmt.percent_free]. rewrite digit_not_percent, Hacc; [reflexivity |].
    pose proof (Z.mod_pos_bound u 10). lia.
  - destruct (10 <=? u) eqn:E.
    + apply IH. cbn [fmt.percent_free].
      rewrite digit_not_percent, Hacc; [reflexivity |].
      pose proof (Z.mod_pos_bound u 10). lia.
    + cbn [fmt.percent_free]. apply Z.leb_gt in E.
      now rewrite digit_not_percent, Hacc.
Qed.

Lemma digits_percent_free (u : Z) : fmt.percent_free (digits u) = true.
Proof. apply digits_loop_percent_free. reflexivity. Qed.

Lemma zeros_percent_free (n : nat) : fmt.percent_free (zeros n) = true.
Proof. induction n as [| n IH]; [reflexivity | exact IH]. Qed.

Lemma d_percent_free (z : Z) : fmt.percent_free (d z) = true.
Proof.
  unfold d. destruct (z <? 0).
  - rewrite percent_free_app, digits_percent_free. reflexivity.
  - apply digits_percent_free.
Qed.

Lemma d0_percent_free (w : nat) (z : Z) : fmt.percent_free (d0 w z) = true.
Proof.
  unfold d0, zero_pad. destruct (z <? 0);
    rewrite ?percent_free_app, zeros_percent_free, digits_percent_free;
    reflexivity.
Qed.

(** The number a string of decimal digits denotes. *)
Fixpoint value_of (s : string) : Z :=
  match s with
  | EmptyString => 0
  | String c s' =>
      (Z.of_nat (nat_of_ascii c) - 48) * 10 ^ Z.of_nat (String.length s')
      + value_of s'
  end.

Lemma digit_value (d : Z) :
  0 <= d < 10 -> Z.of_nat (nat_of_ascii (digit d)) - 48 = d.
Proof.
  intros H. unfold digit. rewrite nat_ascii_embedding by lia. lia.
Qed.

(** The loop loses no digit when the fuel covers the number. *)
Lemma digits_loop_value (fuel : nat) :
  forall u acc,
    0 <= u < 10 ^ Z.of_nat (S fuel) ->
    value_of (digits_loop fuel u acc)
    = u * 10 ^ Z.of_nat (String.length acc) + value_of acc.
Proof.
  induction fuel as [| fuel IH]; intros u acc Hu.
  - change (10 ^ Z.of_nat 1) with 10 in Hu. cbn [digits_loop value_of].
    rewrite Z.mod_small by lia.
    rewrite digit_value by lia. reflexivity.
  - cbn [digits_loop]. destruct (10 <=? u) eqn:E.
    + apply Z.leb_le in E.
      rewrite IH.
      * cbn [value_of String.length].
        rewrite digit_value by (apply Z.mod_pos_bound; lia).
        rewrite Nat2Z.inj_succ, Z.pow_succ_r by lia.
        pose proof (Z.div_mod u 10 ltac:(lia)) as Hdm.
        set (p := 10 ^ Z.of_nat (String.length acc)).
        rewrite Hdm at 3. ring.
      * split; [apply Z.div_pos; lia |].
        apply Z.div_lt_upper_bound; [lia |].
        rewrite <- Z.pow_succ_r by lia. rewrite <- Nat2Z.inj_succ. lia.
    + apply Z.leb_gt in E. cbn [value_of].
      rewrite digit_value by lia. reflexivity.
Qed.

Lemma digits_value (u : Z) : 0 <= u -> value_of (digits u) = u.
Proof.
  intros Hu. unfold digits. rewrite digits_loop_value.
  - cbn [String.length value_of Z.of_nat]. lia.
  - split; [exact Hu |].
    destruct (Z.eq_dec u 0) as [-> | Hne]; [reflexivity |].
    pose proof (Z.log2_spec u ltac:(lia)) as [_ Hlt].
    pose proof (Z.log2_nonneg u) as Hl.
    rewrite Nat2Z.inj_succ, Z2Nat.id by lia.
    eapply Z.lt_le_trans; [exact Hlt |].
    apply Z.pow_le_mono_l. lia.
Qed.

End fmt_int_facts.

Lemma formataTimePadraoLog_percent_free (t : Time) :
  fmt.percent_free (formataTimePadraoLog t +:+ ": ") = true.
Proof.
  unfold formataTimePadraoLog.
  rewrite !percent_free_app, !fmt_int_facts.d0_percent_free,
    fmt_int_facts.d_percent_free.
  reflexivity.
Qed.

(** ** What one call of [output] does *)

Section DispatchFacts.

Context `{F : fmt.Formatter}.

(** The text [output] renders for the remote client and for the file
    buffer. *)
Definition message (format : string) (args : list value) : string :=
  if String.eqb format "" then fmt.Sprint args else fmt.Sprintf format args.

(** The text [output] prints on the console: with an empty format the
    result of [fmt.Sprint] is itself passed to [fmt.Printf] as a format. *)
Definition console_message (format : string) (args : list value) : string :=
  if String.eqb format "" then fmt.Sprintf (fmt.Sprint args) []
  else fmt.Sprintf format args.

Definition remote_active (l : Log) : bool :=
  enableStackDriver l && non_nil (logStackdriver l).

Definition file_active (l : Log) : bool :=
  enableFile l && negb (String.eqb (fileName l) "") && non_nil (bufferFile l).

Definition remote_events (l : Log) (severity : logging.Severity)
           (format : string) (args : list value) : list event :=
  if remote_active l then [EvStackdriver severity (message format args)] else [].

Definition console_events (l : Log) (severity : logging.Severity)
           (format : string) (args : list value) (t : Time) : list event :=
  if enableConsole l then
    [EvLock MuxConsole;
     EvLogPrintf (formats_at severity);
     EvStdout (formataTimePadraoLog t +:+ ": ");
     EvStdout (console_message format args);
     EvStdout newline;
     EvUnlock MuxConsole]
  else [].

Definition file_events (l : Log) (severity : logging.Severity)
           (format : string) (args : list value) (t : Time) : list event :=
  if file_active l then
    [EvLock MuxFile;
     EvBufferWrite (formats_at severity);
     EvBufferWrite (formataTimePadraoLog t +:+ ": ");
     EvBufferWrite (message format args);
     EvBufferWrite newline;
     EvUnlock MuxFile]
  else [].

(** The line the file sink appends. *)
Definition file_line (severity : logging.Severity) (format : string)
           (args : list value) (t : Time) : string :=
  formats_at severity +:+ formataTimePadraoLog t +:+ ": " +:+
  message format args +:+ newline.

(** The mutexes [output] will lock are free. *)
Definition ready (l : Log) : Prop :=
  (enableConsole l = true -> muxConsole l = false) /\
  (file_active l = true -> muxFile l = false).

(** The world a call of [output] returns in. *)
Definition after_output (w : World) (severity : logging.Severity)
           (format : string) (args : list value) : World :=
  let l := w_log w in
  let r1 := w_reads w in
  let r2 := if enableConsole l then S r1 else r1 in
  mkWorld
    (if file_active l then
       set_bufferFile
         (option_map (fun b => b +:+ file_line severity format args (w_clock w r2))
                     (bufferFile l)) l
     else l)
    (w_fs w) (w_clock w)
    (if file_active l then S r2 else r2)
    (w_trace w ++ remote_events l severity format args
             ++ console_events l severity format args (w_clock w r1)
             ++ file_events l severity format args (w_clock w r2)).

Lemma output_returns (w : World) (severity : logging.Severity)
      (format : string) (args : list value) :
  ready (w_log w) ->
  output severity format args w = Ret tt (after_output w severity format args).
Proof.
  destruct w as [l fs clk r tr].
  destruct l as [ec ef es mc mf fn bf ls].
  unfold ready, after_output, remote_events, console_events, file_events,
    file_line, remote_active, file_active, message, console_message.
  cbn [w_log w_fs w_clock w_reads w_trace enableConsole enableFile
       enableStackDriver muxConsole muxFile fileName bufferFile
       logStackdriver].
  intros [Hc Hf].
  pose proof (fmt.Sprintf_verbatim _ (formats_at_percent_free severity)) as Etag.
  assert (Enl : fmt.Sprintf newline [] = newline)
    by (apply fmt.Sprintf_verbatim; reflexivity).
  assert (Ets : forall t, fmt.Sprintf (formataTimePadraoLog t +:+ ": ") []
                          = formataTimePadraoLog t +:+ ": ")
    by (intros t; apply fmt.Sprintf_verbatim, formataTimePadraoLog_percent_free).
  unfold output.
  destruct es, ls, (String.eqb format ""), ec, ef, (String.eqb fn "") eqn:Efn, bf;
    cbn [andb negb option_map non_nil] in Hc, Hf;
    try (specialize (Hc eq_refl); subst mc);
    try (specialize (Hf eq_refl); subst mf);
    cbv [mbind M_bind mret M_ret get_log Lock Unlock time_Now emitM emit
         log_Printf fmt_Printf logStackdriver_Log bufferFile_WriteString
         set_log set_held is_held set_muxConsole set_muxFile set_bufferFile
         w_log w_fs w_clock w_reads w_trace enableConsole enableFile
         enableStackDriver muxConsole muxFile fileName bufferFile
         logStackdriver non_nil andb negb option_map];
    rewrite ?Efn;
    cbv [mbind M_bind mret M_ret get_log Lock Unlock time_Now emitM emit
         log_Printf fmt_Printf logStackdriver_Log bufferFile_WriteString
         set_log set_held is_held set_muxConsole set_muxFile set_bufferFile
         w_log w_fs w_clock w_reads w_trace enableConsole enableFile
         enableStackDriver muxConsole muxFile fileName bufferFile
         logStackdriver non_nil andb negb option_map];
    rewrite ?Etag, ?Enl, ?Ets, <- ?app_assoc, ?app_nil_r,
      ?string_app_assoc;
    reflexivity.
Qed.

End DispatchFacts.

(** ** What one flush tick does *)

(** The tick calls [WriteFile]: the buffer has bytes and the path is set. *)
Definition tick_writes (l : Log) (buf : string) : bool :=
  (0 <? String.length buf)%nat && negb (String.eqb (fileName l) "").

(** [WriteFile] succeeds on the path. *)
Definition writable (fs : FS) (name : string) : bool :=
  negb (bool_decide (name ∈ denied fs)).

(** The world a tick returns in when the buffer pointer is not nil. *)
Definition after_tick (w : World) (buf : string) : World :=
  let l := w_log w in
  mkWorld
    (set_bufferFile (Some "") l)
    (if tick_writes l buf && writable (w_fs w) (fileName l)
     then mkFS (<[fileName l := buf]> (files (w_fs w))) (denied (w_fs w))
     else w_fs w)
    (w_clock w) (w_reads w)
    (w_trace w ++ [EvLock MuxFile]
             ++ (if tick_writes l buf
                 then [EvWriteFile (fileName l) buf (writable (w_fs w) (fileName l))]
                 else [])
             ++ [EvBufferReset; EvUnlock MuxFile]).

Ltac run_monad :=
  cbv [mbind M_bind mret M_ret get_log Lock Unlock time_Now emitM emit
       bufferFile_WriteString bufferFile_Reset ioutil_WriteFile
       set_log set_fs set_held is_held set_muxConsole set_muxFile
       set_bufferFile w_log w_fs w_clock w_reads w_trace enableConsole
       enableFile enableStackDriver muxConsole muxFile fileName bufferFile
       logStackdriver non_nil option_map].

Lemma flushLogFile_tick_returns (w : World) (buf : string) :
  bufferFile (w_log w) = Some buf ->
  muxFile (w_log w) = false ->
  flushLogFile_tick w = Ret tt (after_tick w buf).
Proof.
  destruct w as [l fs clk r tr].
  destruct l as [ec ef es mc mf fn bf ls].
  cbn [w_log bufferFile muxFile]. intros -> ->.
  unfold flushLogFile_tick, after_tick, tick_writes, writable.
  run_monad.
  destruct (0 <? String.length buf)%nat, (String.eqb fn "");
    cbn [andb negb]; run_monad;
    try (rewrite <- ?app_assoc; reflexivity).
  destruct (bool_decide (fn ∈ denied fs)); cbn [negb]; run_monad;
    rewrite <- ?app_assoc; reflexivity.
Qed.

(** With a nil buffer pointer the tick returns holding the file mutex. *)
Lemma flushLogFile_tick_nil (w : World) :
  bufferFile (w_log w) = None ->
  muxFile (w_log w) = false ->
  flushLogFile_tick w
  = Ret tt (emit (EvLock MuxFile) (set_log (set_muxFile true (w_log w)) w)).
Proof.
  destruct w as [l fs clk r tr].
  destruct l as [ec ef es mc mf fn bf ls].
  cbn [w_log bufferFile muxFile]. intros -> ->.
  reflexivity.
Qed.

(** A tick that finds the file mutex held never returns. *)
Lemma flushLogFile_tick_blocked (w : World) :
  muxFile (w_log w) = true -> flushLogFile_tick w = Blocked w.
Proof.
  intros H. unfold flushLogFile_tick. cbv [mbind M_bind Lock is_held].
  now rewrite H.
Qed.

Lemma string_length_pos (s : string) :
  (0 <? String.length s)%nat = true <-> s <> "".
Proof.
  destruct s; simpl; split; intros H; try congruence; try reflexivity.
  discriminate.
Qed.

Lemma string_eqb_nonempty (s : string) :
  negb (String.eqb s "") = true <-> s <> "".
Proof.
  rewrite negb_true_iff. apply String.eqb_neq.
Qed.

Lemma tick_writes_iff (l : Log) (buf : string) :
  tick_writes l buf = true <-> buf <> "" /\ fileName l <> "".
Proof.
  unfold tick_writes.
  rewrite andb_true_iff, string_length_pos, string_eqb_nonempty. tauto.
Qed.

(** C3: one flush tick on a logger whose buffer pointer is not nil calls
    [WriteFile] if and only if the buffer is not empty and the path is not
    empty; the call is for the logger's path with the buffer's bytes, and when
    it succeeds the file holds exactly those bytes, whatever it held before;
    without a call the file system is unchanged; in every case, a failed
    write included, the buffer is empty afterwards. *)
Theorem C3_flush_tick (w : World) (buf : string) :
  bufferFile (w_log w) = Some buf ->
  muxFile (w_log w) = false ->
  exists (w' : World) (new : list event),
    flushLogFile_tick w = Ret tt w' /\
    w_trace w' = (w_trace w ++ new)%list /\
    ((exists ok, In (EvWriteFile (fileName (w_log w)) buf ok) new)
     <-> buf <> "" /\ fileName (w_log w) <> "") /\
    (forall name data ok,
        In (EvWriteFile name data ok) new ->
        name = fileName (w_log w) /\ data = buf) /\
    (In (EvWriteFile (fileName (w_log w)) buf true) new ->
     files (w_fs w') !! fileName (w_log w) = Some buf) /\
    (~ (buf <> "" /\ fileName (w_log w) <> "") -> w_fs w' = w_fs w) /\
    bufferFile (w_log w') = Some "".
Proof.
  intros Hbuf Hmux.
  exists (after_tick w buf).
  eexists. split; [apply flushLogFile_tick_returns; assumption |].
  split; [reflexivity |].
  rewrite <- tick_writes_iff.
  destruct (tick_writes (w_log w) buf) eqn:Ew; cbn [app In andb].
  - split; [split; eauto |].
    split; [intros name data ok [H | [H | [H | [H | []]]]]; try discriminate;
            injection H as <- <- _; auto |].
    split.
    { intros [H | [H | [H | [H | []]]]]; try discriminate.
      injection H as H. unfold after_tick. rewrite Ew, H. cbn [andb w_fs files].
      apply lookup_insert_eq. }
    split; [intros H; exfalso; apply H; reflexivity |].
    destruct (w_log w); reflexivity.
  - split; [split; [intros [ok [H | [H | [H | []]]]]; discriminate | discriminate] |].
    split; [intros name data ok [H | [H | [H | []]]]; discriminate |].
    split; [intros [H | [H | [H | []]]]; discriminate |].
    split; [intros _; unfold after_tick; rewrite Ew; reflexivity |].
    destruct (w_log w); reflexivity.
Qed.

(** ** The facade *)

Definition is_plain (m : method) : bool :=
  match m with
  | MTrace | MInfo | MNotice | MWarn | MErro | MAlert | MEmergency => true
  | _ => false
  end.

(** The severity the body of each method passes to [output]. *)
Definition dispatched (m : method) : logging.Severity :=
  match m with
  | MTrace | MTracef => logging.Debug
  | MInfo => logging.Info
  | MInfof => logging.Debug
  | MNotice | MNoticef => logging.Notice
  | MWarn | MWarnf => logging.Warning
  | MErro | MErrof => logging.Error
  | MAlert | MAlertf => logging.Alert
  | MEmergency | MEmergencyf => logging.Emergency
  end.

(** The severity the name of each method stands for. *)
Definition named_severity (m : method) : logging.Severity :=
  match m with
  | MTrace | MTracef => logging.Debug
  | MInfo | MInfof => logging.Info
  | MNotice | MNoticef => logging.Notice
  | MWarn | MWarnf => logging.Warning
  | MErro | MErrof => logging.Error
  | MAlert | MAlertf => logging.Alert
  | MEmergency | MEmergencyf => logging.Emergency
  end.

(** The format a method passes on: none for a plain method. *)
Definition passed_format (m : method) (format : string) : string :=
  if is_plain m then "" else format.

Section FacadeFacts.

Context `{F : fmt.Formatter}.

Lemma call_output (m : method) (format : string) (args : list value) :
  call m format args = output (dispatched m) (passed_format m format) args.
Proof. destruct m; reflexivity. Qed.

(** Thirteen of the fourteen methods dispatch with the severity of their
    name. *)
Lemma call_named_severity (m : method) (format : string) (args : list value) :
  m <> MInfof ->
  call m format args = output (named_severity m) (passed_format m format) args.
Proof. destruct m; intros H; try reflexivity. now destruct H. Qed.

Lemma dispatched_named (m : method) :
  dispatched m = named_severity m <-> m <> MInfof.
Proof. destruct m; split; intros H; try discriminate; try reflexivity; congruence. Qed.

Lemma call_returns (m : method) (format : string) (args : list value) (w : World) :
  ready (w_log w) ->
  call m format args w
  = Ret tt (after_output w (dispatched m) (passed_format m format) args).
Proof. intros H. rewrite call_output. now apply output_returns. Qed.

End FacadeFacts.

(** ** Worlds used as examples *)

Definition instant : Time := mkTime 2024 3 5 7 8 9 123000000.

Definition clock0 : nat -> Time := fun _ => instant.

(** The logger [NewLogFile(&FileConfig{FileName: "/tmp/x.log"})] returns. *)
Definition file_logger : Log :=
  {| enableConsole := false;
     enableFile := true;
     enableStackDriver := false;
     muxConsole := false;
     muxFile := false;
     fileName := "/tmp/x.log";
     bufferFile := Some "";
     logStackdriver := None |}.

(** A [Log] with the file sink enabled and a nil buffer pointer. *)
Definition nil_buffer_logger : Log :=
  {| enableConsole := false;
     enableFile := true;
     enableStackDriver := false;
     muxConsole := false;
     muxFile := false;
     fileName := "/tmp/x.log";
     bufferFile := None;
     logStackdriver := None |}.

Example NewLogFile_example :
  NewLogFile (Some (FileConfig.mk "/tmp/x.log")) = Some file_logger.
Proof. reflexivity. Qed.

(** C3 at a logger with one buffered line and a file that already has
    content. *)
Lemma C3_flush_tick_witness :
  let w := mkWorld
             (mkLog false true false false false "/tmp/x.log" (Some "line") None)
             (mkFS {[ "/tmp/x.log" := "old" ]} ∅) clock0 0 [] in
  bufferFile (w_log w) = Some "line" /\
  muxFile (w_log w) = false /\
  exists w' : World,
    flushLogFile_tick w = Ret tt w' /\
    files (w_fs w') !! "/tmp/x.log" = Some "line" /\
    bufferFile (w_log w') = Some "".
Proof.
  intros w. split; [reflexivity |]. split; [reflexivity |].
  destruct (C3_flush_tick w "line" eq_refl eq_refl)
    as (w' & new & Hrun & Htr & Hiff & _ & Hfile & _ & Hbuf).
  exists w'. split; [exact Hrun |]. split; [| exact Hbuf].
  apply Hfile.
  assert (E : Ret tt w' = Ret tt (after_tick w "line")).
  { rewrite <- Hrun. reflexivity. }
  injection E as ->. unfold after_tick in Htr. cbn in Htr.
  subst new. right; left. reflexivity.
Defined.

(** C4: at a logger whose buffer pointer is nil a flush tick acquires the
    file mutex and returns without releasing it: the trace of the tick is the
    [Lock] alone, the mutex is held afterwards, and the next tick blocks for
    ever. *)
Theorem C4_nil_buffer_tick_keeps_lock :
  exists w' : World,
    flushLogFile_tick (start nil_buffer_logger empty_fs clock0) = Ret tt w' /\
    w_trace w' = [EvLock MuxFile] /\
    muxFile (w_log w') = true /\
    flushLogFile_tick w' = Blocked w' /\
    flushLogFile 2 (start nil_buffer_logger empty_fs clock0) = Blocked w'.
Proof.
  eexists. split; [reflexivity |]. repeat split.
Qed.

(** With a buffer the tick releases the mutex it acquired. *)
Lemma flushLogFile_tick_releases (w : World) (buf : string) :
  bufferFile (w_log w) = Some buf ->
  muxFile (w_log w) = false ->
  exists w' : World,
    flushLogFile_tick w = Ret tt w' /\ muxFile (w_log w') = false.
Proof.
  intros Hb Hm. exists (after_tick w buf).
  split; [now apply flushLogFile_tick_returns |].
  unfold after_tick. cbn. exact Hm.
Qed.

(** ** Errors never reach the caller *)

(** C10: every facade method returns, and returns nothing (its result is
    the unit value), for every format and argument list; a flush tick whose
    [WriteFile] fails returns as well, with the failure dropped: the buffer is
    emptied, nothing else of the logger changes, the file system is as
    before, [WriteFile] was called once, and the next tick has nothing left
    to write. *)
Theorem C10_no_error_surfaces `{F : fmt.Formatter}
        (m : method) (format : string) (args : list value)
        (w : World) (buf : string) :
  ready (w_log w) ->
  (exists w' : World, call m format args w = Ret tt w') /\
  (bufferFile (w_log w) = Some buf ->
   muxFile (w_log w) = false ->
   buf <> "" ->
   fileName (w_log w) <> "" ->
   fileName (w_log w) ∈ denied (w_fs w) ->
   exists w' w'' : World,
     flushLogFile_tick w = Ret tt w' /\
     w_log w' = set_bufferFile (Some "") (w_log w) /\
     w_fs w' = w_fs w /\
     w_trace w'
     = (w_trace w ++ [EvLock MuxFile;
                      EvWriteFile (fileName (w_log w)) buf false;
                      EvBufferReset; EvUnlock MuxFile])%list /\
     flushLogFile_tick w' = Ret tt w'' /\
     w_fs w'' = w_fs w /\
     w_trace w''
     = (w_trace w' ++ [EvLock MuxFile; EvBufferReset; EvUnlock MuxFile])%list).
Proof.
  intros Hready. split.
  - eexists. now apply call_returns.
  - intros Hbuf Hmux Hne Hname Hden.
    assert (Ew : tick_writes (w_log w) buf = true)
      by (apply tick_writes_iff; auto).
    assert (Ed : writable (w_fs w) (fileName (w_log w)) = false).
    { unfold writable. now rewrite bool_decide_eq_true_2. }
    exists (after_tick w buf), (after_tick (after_tick w buf) "").
    split; [now apply flushLogFile_tick_returns |].
    split; [reflexivity |].
    assert (Efs : w_fs (after_tick w buf) = w_fs w).
    { unfold after_tick. rewrite Ew, Ed. reflexivity. }
    split; [exact Efs |].
    split; [unfold after_tick; rewrite Ew, Ed; reflexivity |].
    split; [apply flushLogFile_tick_returns; [reflexivity | exact Hmux] |].
    split; [exact Efs | reflexivity].
Qed.

(** ** Loggers built by [NewLogConsole] *)

(** The events of the file sink and of the flush task. *)
Definition touches_file (e : event) : bool :=
  match e with
  | EvBufferWrite _ | EvBufferReset | EvWriteFile _ _ _ => true
  | EvLock MuxFile | EvUnlock MuxFile => true
  | _ => false
  end.

Section ConsoleLogger.

Context `{F : fmt.Formatter}.

Lemma console_logger_ready (c : option ConsoleConfig.t) :
  ready (NewLogConsole c).
Proof. split; intros H; [reflexivity | discriminate]. Qed.

(** One action on a console logger leaves the logger and the file system
    as they were and adds no file event to the trace. *)
Lemma console_logger_step (a : action) (w : World) :
  w_log w = NewLogConsole None ->
  exists (w' : World) (new : list event),
    run_action false a w = Ret tt w' /\
    w_log w' = w_log w /\ w_fs w' = w_fs w /\
    w_trace w' = (w_trace w ++ new)%list /\
    forallb (fun e => negb (touches_file e)) new = true.
Proof.
  intros Hl. destruct a as [m format args |].
  - cbn [run_action]. rewrite call_returns
      by (rewrite Hl; apply console_logger_ready).
    eexists. eexists. split; [reflexivity |].
    unfold after_output, remote_events, console_events, file_events,
      remote_active, file_active.
    rewrite Hl. cbn. repeat split.
  - exists w, []. cbn. rewrite app_nil_r. repeat split.
Qed.

Lemma console_logger_run (acts : list action) :
  forall w : World,
    w_log w = NewLogConsole None ->
    exists (w' : World) (new : list event),
      run false acts w = Ret tt w' /\
      w_log w' = w_log w /\ w_fs w' = w_fs w /\
      w_trace w' = (w_trace w ++ new)%list /\
      forallb (fun e => negb (touches_file e)) new = true.
Proof.
  induction acts as [| a acts IH]; intros w Hl.
  - exists w, []. cbn. rewrite app_nil_r. repeat split.
  - destruct (console_logger_step a w Hl) as (w1 & n1 & R1 & L1 & F1 & T1 & N1).
    destruct (IH w1 ltac:(congruence)) as (w2 & n2 & R2 & L2 & F2 & T2 & N2).
    exists w2, (n1 ++ n2)%list.
    split.
    { cbn [run]. unfold mbind, M_bind. rewrite R1. exact R2. }
    split; [congruence |]. split; [congruence |].
    split; [rewrite T2, T1, app_assoc; reflexivity |].
    rewrite forallb_app, N1, N2. reflexivity.
Qed.

End ConsoleLogger.

(** C9: the logger [NewLogConsole] returns is the same for every
    configuration, nil included; after any sequence of method calls on it
    (and of timer ticks, for which no flush task was started) the file system
    is the initial one, the buffer pointer is still nil, and the trace holds
    no buffer write, no buffer reset, no [WriteFile] and no use of the file
    mutex. *)
Theorem C9_console_logger_never_touches_files `{F : fmt.Formatter}
        (c c' : option ConsoleConfig.t) (fs : FS) (clock : nat -> Time)
        (acts : list action) :
  NewLogConsole c = NewLogConsole c' /\
  exists w' : World,
    run false acts (start (NewLogConsole c) fs clock) = Ret tt w' /\
    w_fs w' = fs /\
    bufferFile (w_log w') = None /\
    forallb (fun e => negb (touches_file e)) (w_trace w') = true.
Proof.
  split; [reflexivity |].
  destruct (console_logger_run acts (start (NewLogConsole c) fs clock) eq_refl)
    as (w' & new & R & L & Fs & T & N).
  exists w'. split; [exact R |]. split; [exact Fs |].
  split; [rewrite L; reflexivity |].
  rewrite T. exact N.
Qed.

(** C10 at a logger with both sinks enabled, one buffered line and a path
    that cannot be written. *)
Lemma C10_no_error_surfaces_witness :
  let w := mkWorld
             (mkLog true true false false false "/tmp/x.log" (Some "line") None)
             (mkFS ∅ {[ "/tmp/x.log" ]}) clock0 0 [] in
  ready (w_log w) /\
  (exists w' : World, call MInfo "" [VString "a"] w = Ret tt w') /\
  (exists w' : World,
      flushLogFile_tick w = Ret tt w' /\
      bufferFile (w_log w') = Some "" /\
      w_fs w' = w_fs w).
Proof.
  intros w.
  assert (Hready : ready (w_log w)) by (split; reflexivity).
  split; [exact Hready |].
  destruct (C10_no_error_surfaces MInfo "" [VString "a"] w "line" Hready)
    as [Hcall Htick].
  split; [exact Hcall |].
  assert (Hden : fileName (w_log w) ∈ denied (w_fs w))
    by (change ("/tmp/x.log" ∈ ({[ "/tmp/x.log" ]} : gset string));
        apply elem_of_singleton_2; reflexivity).
  destruct (Htick eq_refl eq_refl ltac:(discriminate) ltac:(discriminate) Hden)
    as (w' & w'' & R & L & Fs & _).
  exists w'. split; [exact R |]. split; [rewrite L; reflexivity | exact Fs].
Defined.

(** ** The file sink *)

(** C7 as stated fails: the logger [NewLogFile] builds from an empty path
    has the file sink enabled and a buffer, and a call appends nothing. *)
Lemma C7_counterexample :
  let l := mkLog false true false false false "" (Some "") None in
  NewLogFile (Some (FileConfig.mk "")) = Some l /\
  enableFile l = true /\
  bufferFile l <> None /\
  exists w' : World,
    call MInfo "" [VString "a"] (start l empty_fs clock0) = Ret tt w' /\
    bufferFile (w_log w') = Some "" /\
    w_trace w' = [].
Proof.
  cbn zeta. split; [reflexivity |]. split; [reflexivity |].
  split; [discriminate |].
  eexists. split; [reflexivity |]. split; reflexivity.
Qed.

(** C7, amended: on a logger whose file sink is enabled, whose path is not
    empty and whose buffer pointer is not nil, a call appends exactly one
    line, tag then timestamp then [": "] then message then newline, after the
    bytes already buffered; the four writes are the last events of the call,
    between [Lock] and [Unlock] of the file mutex, and nothing before them
    touches the buffer. *)
Theorem C7_file_sink_appends_line `{F : fmt.Formatter}
        (m : method) (format : string) (args : list value)
        (w : World) (buf : string) :
  enableFile (w_log w) = true ->
  fileName (w_log w) <> "" ->
  bufferFile (w_log w) = Some buf ->
  muxFile (w_log w) = false ->
  (enableConsole (w_log w) = true -> muxConsole (w_log w) = false) ->
  exists (w' : World) (t : Time) (before : list event),
    call m format args w = Ret tt w' /\
    t = w_clock w (if enableConsole (w_log w) then S (w_reads w) else w_reads w) /\
    bufferFile (w_log w')
    = Some (buf +:+ formats_at (dispatched m) +:+ formataTimePadraoLog t +:+ ": "
                +:+ message (passed_format m format) args +:+ newline) /\
    w_trace w'
    = (w_trace w ++ before ++
         [EvLock MuxFile;
          EvBufferWrite (formats_at (dispatched m));
          EvBufferWrite (formataTimePadraoLog t +:+ ": ");
          EvBufferWrite (message (passed_format m format) args);
          EvBufferWrite newline;
          EvUnlock MuxFile])%list /\
    forallb (fun e => negb (touches_file e)) before = true.
Proof.
  intros Hen Hname Hbuf Hmux Hcon.
  assert (Hact : file_active (w_log w) = true).
  { unfold file_active. rewrite Hen, Hbuf.
    apply String.eqb_neq in Hname. rewrite Hname. reflexivity. }
  assert (Hready : ready (w_log w)) by (split; auto).
  eexists. eexists.
  exists (remote_events (w_log w) (dispatched m) (passed_format m format) args
            ++ console_events (w_log w) (dispatched m) (passed_format m format)
                 args (w_clock w (w_reads w)))%list.
  split; [now apply call_returns |].
  split; [reflexivity |].
  unfold after_output. cbn [w_log w_trace]. rewrite Hact.
  split; [| split].
  - destruct (w_log w); cbn in Hbuf |- *. rewrite Hbuf. reflexivity.
  - unfold file_events. rewrite Hact, <- app_assoc. reflexivity.
  - unfold remote_events, console_events.
    destruct (remote_active (w_log w)), (enableConsole (w_log w)); reflexivity.
Qed.

(** C7 at a logger with both sinks enabled and one line already buffered. *)
Lemma C7_file_sink_appends_line_witness :
  let w := mkWorld
             (mkLog true true false false false "/tmp/x.log" (Some "old ") None)
             empty_fs clock0 0 [] in
  enableFile (w_log w) = true /\
  fileName (w_log w) <> "" /\
  bufferFile (w_log w) = Some "old " /\
  muxFile (w_log w) = false /\
  enableConsole (w_log w) = true /\
  muxConsole (w_log w) = false /\
  exists w' : World,
    call MWarnf "disk at %d%%" [VInt 91] w = Ret tt w' /\
    bufferFile (w_log w')
    = Some ("old [WARN] 05/03/2024 07:08:09.123: disk at 91%" +:+ newline).
Proof.
  intros w. split; [reflexivity |]. split; [discriminate |].
  split; [reflexivity |]. split; [reflexivity |].
  split; [reflexivity |]. split; [reflexivity |].
  destruct (C7_file_sink_appends_line MWarnf "disk at %d%%" [VInt 91] w "old "
              eq_refl ltac:(discriminate) eq_refl eq_refl (fun _ => eq_refl))
    as (w' & t & before & R & -> & B & _).
  exists w'. split; [exact R |]. rewrite B. reflexivity.
Defined.

(** ** The message of a plain call *)

Fixpoint concat_all (l : list string) : string :=
  match l with
  | [] => ""
  | x :: rest => x +:+ concat_all rest
  end.

(** The default representations of the arguments, one after the other. *)
Definition no_separator (args : list value) : string :=
  concat_all (map fmt.printArg args).

(** The representations with one space between two neighbours of which
    neither is a string. *)
Fixpoint with_spaces (args : list value) : string :=
  match args with
  | [] => ""
  | x :: rest =>
      fmt.printArg x +:+
      match rest with
      | [] => ""
      | y :: _ =>
          (if fmt.isString x || fmt.isString y then "" else " ") +:+
          with_spaces rest
      end
  end.

(** Of any two neighbours at least one is a string. *)
Fixpoint adjacent_strings (args : list value) : bool :=
  match args with
  | [] => true
  | x :: rest =>
      match rest with
      | [] => true
      | y :: _ => (fmt.isString x || fmt.isString y) && adjacent_strings rest
      end
  end.

Lemma doPrint_with_spaces (a : list value) :
  forall (n : nat) (prev : bool),
    fmt.doPrint (S n) prev a
    = match a with
      | [] => ""
      | y :: _ => (if prev || fmt.isString y then "" else " ") +:+ with_spaces a
      end.
Proof.
  induction a as [| x a IH]; intros n prev; [reflexivity |].
  cbn [fmt.doPrint with_spaces]. rewrite IH.
  replace ((0 <? S n)%nat && negb (fmt.isString x) && negb prev)
    with (negb (prev || fmt.isString x))
    by (destruct prev, (fmt.isString x); reflexivity).
  destruct (prev || fmt.isString x); cbn [negb];
    rewrite ?string_app_nil_l; destruct a; reflexivity.
Qed.

Lemma Sprint_with_spaces (a : list value) : fmt.Sprint a = with_spaces a.
Proof.
  unfold fmt.Sprint. destruct a as [| x a]; [reflexivity |].
  cbn [fmt.doPrint with_spaces]. rewrite doPrint_with_spaces.
  cbn [Nat.ltb Nat.leb andb]. rewrite string_app_nil_l.
  destruct a; reflexivity.
Qed.

Lemma with_spaces_no_separator (a : list value) :
  adjacent_strings a = true -> with_spaces a = no_separator a.
Proof.
  unfold no_separator.
  induction a as [| x a IH]; [reflexivity |].
  cbn [adjacent_strings with_spaces map concat_all].
  destruct a as [| y a]; [reflexivity |].
  intros H. apply andb_true_iff in H as [Hxy Hrest].
  rewrite Hxy, string_app_nil_l, IH by exact Hrest. reflexivity.
Qed.

(** C5 as stated fails: [Info(1, 2)] renders the message ["1 2"], while the
    two representations without separator are ["12"]. *)
Lemma C5_counterexample :
  exists w' : World,
    call MInfo "" [VInt 1; VInt 2] (start file_logger empty_fs clock0) = Ret tt w' /\
    bufferFile (w_log w')
    = Some ("[INFO] 05/03/2024 07:08:09.123: 1 2" +:+ newline) /\
    no_separator [VInt 1; VInt 2] = "12" /\
    bufferFile (w_log w')
    <> Some ("[INFO] 05/03/2024 07:08:09.123: " +:+ no_separator [VInt 1; VInt 2]
               +:+ newline).
Proof.
  eexists. split; [reflexivity |]. split; [reflexivity |].
  split; [reflexivity |]. discriminate.
Qed.

(** C5, amended: the message a plain method hands to the remote client and
    appends to the file buffer is the concatenation of the default
    representations of the arguments with a single space between two
    neighbours of which neither is a string, and it is printed as such on
    the console when it holds no ['%']; when of any two neighbours one is a
    string, it is the concatenation without any separator. *)
Theorem C5_plain_message `{F : fmt.Formatter}
        (m : method) (format : string) (args : list value) (w : World) :
  is_plain m = true ->
  ready (w_log w) ->
  exists (w' : World) (new : list event),
    call m format args w = Ret tt w' /\
    w_trace w' = (w_trace w ++ new)%list /\
    (remote_active (w_log w) = true ->
     In (EvStackdriver (named_severity m) (with_spaces args)) new) /\
    (file_active (w_log w) = true ->
     In (EvBufferWrite (with_spaces args)) new) /\
    (enableConsole (w_log w) = true ->
     fmt.percent_free (with_spaces args) = true ->
     In (EvStdout (with_spaces args)) new) /\
    (adjacent_strings args = true -> with_spaces args = no_separator args).
Proof.
  intros Hplain Hready.
  eexists. eexists. split; [now apply call_returns |].
  split; [reflexivity |].
  assert (Efmt : passed_format m format = "")
    by (unfold passed_format; now rewrite Hplain).
  assert (Esev : dispatched m = named_severity m)
    by (destruct m; try reflexivity; discriminate).
  rewrite Efmt, Esev.
  unfold remote_events, console_events, file_events, message, console_message.
  cbn [String.eqb]. rewrite Sprint_with_spaces.
  split; [intros ->; apply in_or_app; left; left; reflexivity |].
  split; [intros ->; apply in_or_app; right; apply in_or_app; right;
          cbn; tauto |].
  split; [| apply with_spaces_no_separator].
  intros -> Hpf. rewrite (fmt.Sprintf_verbatim _ Hpf).
  apply in_or_app; right; apply in_or_app; left. cbn; tauto.
Qed.

(** C5 at [Info("a", "b")] on a logger with the console and the file sink
    enabled. *)
Lemma C5_plain_message_witness :
  let w := start (mkLog true true false false false "/tmp/x.log" (Some "") None)
                 empty_fs clock0 in
  is_plain MInfo = true /\
  ready (w_log w) /\
  adjacent_strings [VString "a"; VString "b"] = true /\
  no_separator [VString "a"; VString "b"] = "ab" /\
  exists (w' : World) (new : list event),
    call MInfo "" [VString "a"; VString "b"] w = Ret tt w' /\
    w_trace w' = new /\
    In (EvBufferWrite "ab") new /\
    In (EvStdout "ab") new.
Proof.
  intros w.
  assert (Hready : ready (w_log w)) by (split; reflexivity).
  split; [reflexivity |]. split; [exact Hready |]. split; [reflexivity |].
  split; [reflexivity |].
  destruct (C5_plain_message MInfo "" [VString "a"; VString "b"] w eq_refl Hready)
    as (w' & new & R & T & _ & Hfile & Hcon & Hsep).
  exists w', new. split; [exact R |]. split; [exact T |].
  split; [apply (Hfile eq_refl) | apply (Hcon eq_refl eq_refl)].
Defined.

(** ** The console sink *)

(** The texts written to standard output, in order. *)
Fixpoint stdout_writes (tr : list event) : list string :=
  match tr with
  | [] => []
  | EvStdout s :: rest => s :: stdout_writes rest
  | _ :: rest => stdout_writes rest
  end.

(** The texts handed to the standard logger of package [log], in order. *)
Fixpoint logger_writes (tr : list event) : list string :=
  match tr with
  | [] => []
  | EvLogPrintf s :: rest => s :: logger_writes rest
  | _ :: rest => logger_writes rest
  end.

(** Whatever the call, the console sink prints three texts on standard
    output, between [Lock] and [Unlock] of the console mutex; the tag goes to
    [log.Printf]. *)
Lemma console_sink_events `{F : fmt.Formatter}
      (severity : logging.Severity) (format : string) (args : list value)
      (l : Log) (t : Time) :
  enableConsole l = true ->
  console_events l severity format args t
  = [EvLock MuxConsole;
     EvLogPrintf (formats_at severity);
     EvStdout (formataTimePadraoLog t +:+ ": ");
     EvStdout (console_message format args);
     EvStdout newline;
     EvUnlock MuxConsole] /\
  stdout_writes (console_events l severity format args t)
  = [formataTimePadraoLog t +:+ ": "; console_message format args; newline] /\
  logger_writes (console_events l severity format args t)
  = [formats_at severity].
Proof.
  intros H. unfold console_events. rewrite H. repeat split.
Qed.

(** C6: [Info("a")] on the logger of [NewLogConsole].  The tag is the
    argument of [log.Printf], the standard logger of package [log], and is
    not among the writes to standard output, which are three: timestamp,
    message, newline. *)
Theorem C6_console_tag_goes_to_log_package :
  exists w' : World,
    call MInfo "" [VString "a"] (start (NewLogConsole None) empty_fs clock0)
    = Ret tt w' /\
    w_trace w'
    = [EvLock MuxConsole;
       EvLogPrintf "[INFO] ";
       EvStdout "05/03/2024 07:08:09.123: ";
       EvStdout "a";
       EvStdout newline;
       EvUnlock MuxConsole] /\
    stdout_writes (w_trace w') = ["05/03/2024 07:08:09.123: "; "a"; newline] /\
    ~ In "[INFO] " (stdout_writes (w_trace w')).
Proof.
  eexists. split; [reflexivity |]. split; [reflexivity |].
  split; [reflexivity |].
  cbn. intros [H | [H | [H | []]]]; discriminate.
Qed.

(** On the console the message of a plain call is used as a format: a
    ['%'] in an argument is read as a directive. *)
Example console_plain_message_reformatted :
  exists w' : World,
    call MInfo "" [VString "100%"] (start (NewLogConsole None) empty_fs clock0)
    = Ret tt w' /\
    stdout_writes (w_trace w')
    = ["05/03/2024 07:08:09.123: "; "100%!(NOVERB)"; newline].
Proof. eexists. split; reflexivity. Qed.

(** ** Severity of each method *)

(** C1: [Infof] passes [logging.Debug] to [output]; on a file logger
    [Infof("x")] buffers a line tagged ["[TRACE] "], where the severity of
    the method's name has the tag ["[INFO] "], which [Info("x")] buffers. *)
Theorem C1_Infof_dispatches_Debug :
  (forall (F : fmt.Formatter) (format : string) (args : list value),
      Infof format args = output logging.Debug format args) /\
  dispatched MInfof <> named_severity MInfof /\
  (exists w' : World,
      call MInfof "x" [] (start file_logger empty_fs clock0) = Ret tt w' /\
      bufferFile (w_log w')
      = Some ("[TRACE] 05/03/2024 07:08:09.123: x" +:+ newline)) /\
  (exists w' : World,
      call MInfo "" [VString "x"] (start file_logger empty_fs clock0) = Ret tt w' /\
      bufferFile (w_log w')
      = Some ("[INFO] 05/03/2024 07:08:09.123: x" +:+ newline)).
Proof.
  split; [reflexivity |]. split; [discriminate |].
  split; eexists; split; reflexivity.
Qed.

(** ** The tag of each severity *)

(** C8: the table gives each of the seven severities its tag, and the empty
    string to every other severity. *)
Theorem C8_formats_total_and_fixed :
  formats_at logging.Debug = "[TRACE] " /\
  formats_at logging.Info = "[INFO] " /\
  formats_at logging.Notice = "[NOTICE] " /\
  formats_at logging.Warning = "[WARN] " /\
  formats_at logging.Error = "[ERROR] " /\
  formats_at logging.Alert = "[ALERT] " /\
  formats_at logging.Emergency = "[EMERGENCY] " /\
  forall s : logging.Severity,
    ~ In s [logging.Debug; logging.Info; logging.Notice; logging.Warning;
            logging.Error; logging.Alert; logging.Emergency] ->
    formats_at s = "".
Proof.
  repeat (split; [reflexivity |]).
  intros s Hs. unfold formats_at, formats. cbn [list_to_map foldr].
  repeat (rewrite lookup_insert_ne by (intros <-; apply Hs; cbn; tauto)).
  rewrite lookup_empty. reflexivity.
Qed.

(** C8 at [logging.Critical] and [logging.Default], which have no tag. *)
Lemma C8_formats_total_and_fixed_witness :
  ~ In logging.Critical
       [logging.Debug; logging.Info; logging.Notice; logging.Warning;
        logging.Error; logging.Alert; logging.Emergency] /\
  formats_at logging.Critical = "" /\
  formats_at logging.Default = "".
Proof.
  assert (H : forall s : logging.Severity,
             ~ In s [logging.Debug; logging.Info; logging.Notice; logging.Warning;
                     logging.Error; logging.Alert; logging.Emergency] ->
             formats_at s = "")
    by (apply C8_formats_total_and_fixed).
  assert (Hc : ~ In logging.Critical
                  [logging.Debug; logging.Info; logging.Notice; logging.Warning;
                   logging.Error; logging.Alert; logging.Emergency])
    by (cbn; intros [E | [E | [E | [E | [E | [E | [E | []]]]]]]]; discriminate).
  split; [exact Hc |]. split; [apply H; exact Hc |].
  apply H. cbn; intros [E | [E | [E | [E | [E | [E | [E | []]]]]]]]; discriminate.
Defined.

(** ** The timestamp *)

Definition is_digit (c : ascii) : bool :=
  (48 <=? nat_of_ascii c)%nat && (nat_of_ascii c <=? 57)%nat.

Definition is_letter (c : ascii) : bool :=
  ((65 <=? nat_of_ascii c)%nat && (nat_of_ascii c <=? 90)%nat)
  || ((97 <=? nat_of_ascii c)%nat && (nat_of_ascii c <=? 122)%nat).

(** [has_shape pattern s]: [s] has the length of [pattern], a decimal digit
    wherever [pattern] has a letter and the byte of [pattern] elsewhere. *)
Fixpoint has_shape (pattern s : string) : bool :=
  match pattern, s with
  | EmptyString, EmptyString => true
  | String p pattern', String c s' =>
      (if is_letter p then is_digit c else Ascii.eqb p c) && has_shape pattern' s'
  | _, _ => false
  end.

Definition timestamp_shape (s : string) : bool :=
  has_shape "DD/MM/YYYY hh:mm:ss.mmm" s.

Lemma has_shape_app (p1 s1 p2 s2 : string) :
  has_shape p1 s1 = true ->
  has_shape (p1 +:+ p2) (s1 +:+ s2) = has_shape p2 s2.
Proof.
  revert s1. induction p1 as [| p p1 IH]; intros [| c s1] H;
    try discriminate; [reflexivity |].
  cbn [has_shape] in H. apply andb_true_iff in H as [Hc Hrest].
  rewrite !string_app_cons. cbn [has_shape]. rewrite Hc, (IH _ Hrest).
  reflexivity.
Qed.

(** A property checked on each integer of a range holds on the range. *)
Lemma forall_range (P : Z -> bool) (lo : Z) (n : nat) :
  forallb P (map (fun i => lo + Z.of_nat i) (seq 0 n)) = true ->
  forall z, lo <= z < lo + Z.of_nat n -> P z = true.
Proof.
  intros H z Hz. rewrite forallb_forall in H. apply H.
  apply in_map_iff. exists (Z.to_nat (z - lo)). split; [lia |].
  apply in_seq. lia.
Qed.

Lemma d0_2_shape (p : string) (z : Z) :
  String.length p = 2%nat ->
  forallb is_letter (list_ascii_of_string p) = true ->
  0 <= z <= 99 -> has_shape p (fmt_int.d0 2 z) = true.
Proof.
  intros Hlen Hlet Hz.
  destruct p as [| a [| b [| ? ?]]]; try discriminate.
  cbn in Hlet. apply andb_true_iff in Hlet as [Ha Hb].
  apply andb_true_iff in Hb as [Hb _].
  pose proof (forall_range
                (fun z => match fmt_int.d0 2 z with
                          | String x (String y EmptyString) =>
                              is_digit x && is_digit y
                          | _ => false
                          end) 0 100 ltac:(vm_compute; reflexivity) z ltac:(lia))
    as H.
  cbv beta in H. destruct (fmt_int.d0 2 z) as [| x [| y [| ? ?]]];
    try discriminate.
  cbn [has_shape]. rewrite Ha, Hb. apply andb_true_iff in H as [-> ->].
  reflexivity.
Qed.

Lemma d0_4_shape (z : Z) :
  0 <= z <= 9999 -> has_shape "YYYY" (fmt_int.d0 4 z) = true.
Proof.
  intros Hz.
  exact (forall_range (fun z => has_shape "YYYY" (fmt_int.d0 4 z)) 0
           (Z.to_nat 10000) ltac:(vm_compute; reflexivity) z ltac:(lia)).
Qed.

(** The millisecond field has three digits exactly from 100 on. *)
Lemma d_millis_shape (z : Z) :
  0 <= z <= 999 -> has_shape "mmm" (fmt_int.d z) = (100 <=? z).
Proof.
  intros Hz. apply Bool.eqb_prop.
  exact (forall_range
           (fun z => Bool.eqb (has_shape "mmm" (fmt_int.d z)) (100 <=? z)) 0 1000
           ltac:(vm_compute; reflexivity) z ltac:(lia)).
Qed.

(** Where [formataTimePadraoLog] has the shape [DD/MM/YYYY hh:mm:ss.mmm]:
    for a year of at most four digits, exactly at the instants whose
    millisecond is 100 or more. *)
Lemma formataTimePadraoLog_shape (t : Time) :
  valid_time t ->
  0 <= Year t <= 9999 ->
  timestamp_shape (formataTimePadraoLog t) = true
  <-> 100000000 <= Nanosecond t.
Proof.
  intros (Hmo & Hd & Hh & Hmi & Hs & Hn) Hy.
  unfold timestamp_shape, formataTimePadraoLog.
  change "DD/MM/YYYY hh:mm:ss.mmm"
    with ("DD" +:+ "/" +:+ "MM" +:+ "/" +:+ "YYYY" +:+ " " +:+ "hh" +:+ ":"
               +:+ "mm" +:+ ":" +:+ "ss" +:+ "." +:+ "mmm").
  rewrite has_shape_app by (apply d0_2_shape; [reflexivity .. | lia]).
  rewrite has_shape_app by reflexivity.
  rewrite has_shape_app by (apply d0_2_shape; [reflexivity .. | lia]).
  rewrite has_shape_app by reflexivity.
  rewrite has_shape_app by (apply d0_4_shape; lia).
  rewrite has_shape_app by reflexivity.
  rewrite has_shape_app by (apply d0_2_shape; [reflexivity .. | lia]).
  rewrite has_shape_app by reflexivity.
  rewrite has_shape_app by (apply d0_2_shape; [reflexivity .. | lia]).
  rewrite has_shape_app by reflexivity.
  rewrite has_shape_app by (apply d0_2_shape; [reflexivity .. | lia]).
  rewrite has_shape_app by reflexivity.
  assert (Hq : 0 <= Z.quot (Nanosecond t) 1000000 <= 999).
  { rewrite Z.quot_div_nonneg by lia.
    split; [apply Z.div_pos; lia |].
    apply Z.lt_succ_r. apply Z.div_lt_upper_bound; lia. }
  rewrite d_millis_shape by exact Hq.
  rewrite Z.leb_le, Z.quot_div_nonneg by lia.
  split; intros H.
  - apply Z.nlt_ge. intros Hlt.
    assert (Nanosecond t / 1000000 < 100)
      by (apply Z.div_lt_upper_bound; lia).
    lia.
  - apply Z.div_le_lower_bound; lia.
Qed.

(** C2: at 2024-03-05 07:08:09.005 the result is ["05/03/2024 07:08:09.5"]:
    the millisecond field has one digit and the text has not the shape
    [DD/MM/YYYY hh:mm:ss.mmm]; at 2024-03-05 07:08:09.123 the result is the
    text the specification gives. *)
Theorem C2_millisecond_field_not_padded :
  let t := mkTime 2024 3 5 7 8 9 5000000 in
  valid_time t /\
  formataTimePadraoLog t = "05/03/2024 07:08:09.5" /\
  timestamp_shape (formataTimePadraoLog t) = false /\
  formataTimePadraoLog t <> "05/03/2024 07:08:09.005" /\
  formataTimePadraoLog instant = "05/03/2024 07:08:09.123" /\
  timestamp_shape (formataTimePadraoLog instant) = true.
Proof.
  cbn zeta. split; [unfold valid_time; cbn; lia |].
  split; [reflexivity |]. split; [reflexivity |].
  split; [discriminate |]. split; reflexivity.
Qed.

(** ** Loggers built by the constructors never block *)

(** Both mutexes are free and, when a flush task runs, the buffer pointer is
    not nil. *)
Definition quiescent (flusher : bool) (l : Log) : Prop :=
  muxConsole l = false /\ muxFile l = false /\
  (flusher = true -> bufferFile l <> None).

Section Reachable.

Context `{F : fmt.Formatter}.

Lemma quiescent_ready (flusher : bool) (l : Log) :
  quiescent flusher l -> ready l.
Proof. intros (Hc & Hf & _). split; auto. Qed.

Lemma quiescent_step (flusher : bool) (a : action) (w : World) :
  quiescent flusher (w_log w) ->
  exists w' : World,
    run_action flusher a w = Ret tt w' /\ quiescent flusher (w_log w').
Proof.
  intros Hq. pose proof Hq as (Hc & Hf & Hb).
  destruct a as [m format args |]; cbn [run_action].
  - eexists. split; [apply call_returns; eapply quiescent_ready; eauto |].
    unfold after_output. cbn [w_log].
    destruct (file_active (w_log w)) eqn:Ea; [| exact Hq].
    destruct (w_log w) as [ec ef es mc mf fn bf ls]. cbn in *.
    repeat split; auto.
    intros Hfl. specialize (Hb Hfl). destruct bf; [discriminate | congruence].
  - destruct flusher.
    + destruct (bufferFile (w_log w)) as [buf |] eqn:Eb;
        [| now destruct (Hb eq_refl)].
      exists (after_tick w buf).
      split; [now apply flushLogFile_tick_returns |].
      unfold after_tick. cbn [w_log].
      destruct (w_log w) as [ec ef es mc mf fn bf ls]. cbn in *.
      repeat split; auto; discriminate.
    + exists w. split; [reflexivity | exact Hq].
Qed.

(** Every run of calls and ticks from a quiescent logger returns, in a
    quiescent logger. *)
Lemma quiescent_run (flusher : bool) (acts : list action) :
  forall w : World,
    quiescent flusher (w_log w) ->
    exists w' : World,
      run flusher acts w = Ret tt w' /\ quiescent flusher (w_log w').
Proof.
  induction acts as [| a acts IH]; intros w Hq.
  - exists w. split; [reflexivity | exact Hq].
  - destruct (quiescent_step flusher a w Hq) as (w1 & R1 & Q1).
    destruct (IH w1 Q1) as (w2 & R2 & Q2).
    exists w2. split; [| exact Q2].
    cbn [run]. unfold mbind, M_bind. rewrite R1. exact R2.
Qed.

(** The logger of [NewLogFile], with its flush task, and the logger of
    [NewLogConsole], without one, are quiescent: no call and no tick on
    them ever blocks. *)
Lemma NewLogFile_quiescent (c : FileConfig.t) (l : Log) :
  NewLogFile (Some c) = Some l -> quiescent true l.
Proof.
  intros H. injection H as <-. repeat split; try discriminate.
Qed.

Lemma NewLogConsole_quiescent (c : option ConsoleConfig.t) :
  quiescent false (NewLogConsole c).
Proof. repeat split; try discriminate. Qed.

End Reachable.

(** ** The scenarios of the specification *)

Example Infof_formatted_message :
  exists w' : World,
    call MInfof "%s-%s" [VString "a"; VString "b"]
         (start file_logger empty_fs clock0) = Ret tt w' /\
    w_trace w'
    = [EvLock MuxFile;
       EvBufferWrite "[TRACE] ";
       EvBufferWrite "05/03/2024 07:08:09.123: ";
       EvBufferWrite "a-b";
       EvBufferWrite newline;
       EvUnlock MuxFile].
Proof. eexists. split; reflexivity. Qed.

Example Warnf_then_flush :
  exists w' : World,
    run true [ACall MWarnf "disk at %d%%" [VInt 91]; ATick]
        (start file_logger empty_fs clock0) = Ret tt w' /\
    files (w_fs w') !! "/tmp/x.log"
    = Some ("[WARN] 05/03/2024 07:08:09.123: disk at 91%" +:+ newline) /\
    bufferFile (w_log w') = Some "".
Proof.
  eexists. split; [vm_compute; reflexivity |].
  split; vm_compute; reflexivity.
Qed.

(** Each flush replaces the content of the file: after two flushed lines
    the file holds the second one only. *)
Example flush_replaces_file :
  exists w' : World,
    run true [ACall MInfo "" [VString "one"]; ATick;
              ACall MInfo "" [VString "two"]; ATick]
        (start file_logger empty_fs clock0) = Ret tt w' /\
    files (w_fs w') !! "/tmp/x.log"
    = Some ("[INFO] 05/03/2024 07:08:09.123: two" +:+ newline).
Proof. eexists. split; vm_compute; reflexivity. Qed.


(** * Further properties of the package *)

(** ** Tags and timestamps used as formats *)

(** X1: whatever the severity, known or not, its tag holds no ['%'], so
    [log.Printf(formats[severity])], which uses the tag as a format, renders
    the tag itself. *)
Theorem tag_is_a_verbatim_format `{F : fmt.Formatter} (s : logging.Severity) :
  fmt.percent_free (formats_at s) = true /\
  fmt.Sprintf (formats_at s) [] = formats_at s.
Proof.
  pose proof (formats_at_percent_free s) as H.
  split; [exact H | now apply fmt.Sprintf_verbatim].
Qed.

(** X2: a tag that is not empty belongs to one severity only: two
    severities with the same non-empty tag are equal. *)
Theorem tag_identifies_severity (s1 s2 : logging.Severity) :
  formats_at s1 = formats_at s2 ->
  formats_at s1 <> "" ->
  s1 = s2.
Proof.
  unfold formats_at, formats. cbn [list_to_map foldr].
  rewrite !lookup_insert, !lookup_empty.
  intros Heq Hne.
  repeat case_decide; subst; cbn in Heq, Hne;
    try reflexivity; try discriminate; try (now destruct Hne).
Qed.

Lemma tag_identifies_severity_witness :
  formats_at logging.Warning = formats_at 400 /\
  formats_at logging.Warning <> "" /\
  logging.Warning = 400.
Proof.
  assert (H1 : formats_at logging.Warning = formats_at 400) by reflexivity.
  assert (H2 : formats_at logging.Warning <> "") by discriminate.
  split; [exact H1 |]. split; [exact H2 |].
  exact (tag_identifies_severity logging.Warning 400 H1 H2).
Defined.

(** X3: for every value of the seven fields of an instant, in range or not,
    the timestamp followed by [": "] holds no ['%'], so
    [fmt.Printf(formataTimePadraoLog(time.Now()) + ": ")], which uses it as a
    format, prints it as it is. *)
Theorem timestamp_is_a_verbatim_format `{F : fmt.Formatter} (t : Time) :
  fmt.percent_free (formataTimePadraoLog t +:+ ": ") = true /\
  fmt.Sprintf (formataTimePadraoLog t +:+ ": ") []
  = formataTimePadraoLog t +:+ ": ".
Proof.
  pose proof (formataTimePadraoLog_percent_free t) as H.
  split; [exact H | now apply fmt.Sprintf_verbatim].
Qed.

(** ** Width of the timestamp *)

Lemma has_shape_length (p s : string) :
  has_shape p s = true -> String.length s = String.length p.
Proof.
  revert s. induction p as [| c p IH]; intros [| x s] H; try discriminate;
    [reflexivity |].
  cbn [has_shape] in H. apply andb_true_iff in H as [_ H].
  cbn [String.length]. now rewrite (IH _ H).
Qed.

(** The number of digits [%d] prints for a millisecond count. *)
Definition millis_width (ms : Z) : nat :=
  if ms <? 10 then 1%nat else if ms <? 100 then 2%nat else 3%nat.

Lemma d_millis_length (z : Z) :
  0 <= z <= 999 -> String.length (fmt_int.d z) = millis_width z.
Proof.
  intros Hz. apply Nat.eqb_eq.
  exact (forall_range
           (fun z => Nat.eqb (String.length (fmt_int.d z)) (millis_width z))
           0 1000 ltac:(vm_compute; reflexivity) z ltac:(lia)).
Qed.

(** X4: for an instant with fields in range and a year from 0 to 9999, the
    timestamp is 20 bytes followed by the millisecond count in one, two or
    three digits: its length is 21 below 10 ms, 22 below 100 ms and 23 from
    100 ms on, and it has the fixed shape [DD/MM/YYYY hh:mm:ss.mmm] exactly
    in the last case. *)
Theorem timestamp_width (t : Time) :
  valid_time t ->
  0 <= Year t <= 9999 ->
  String.length (formataTimePadraoLog t)
  = (20 + millis_width (Z.quot (Nanosecond t) 1000000))%nat /\
  (timestamp_shape (formataTimePadraoLog t) = true
   <-> 100 <= Z.quot (Nanosecond t) 1000000).
Proof.
  intros Hv Hy. split.
  - destruct Hv as (Hmo & Hd & Hh & Hmi & Hs & Hn).
    assert (Hq : 0 <= Z.quot (Nanosecond t) 1000000 <= 999).
    { rewrite Z.quot_div_nonneg by lia.
      split; [apply Z.div_pos; lia |].
      apply Z.lt_succ_r. apply Z.div_lt_upper_bound; lia. }
    unfold formataTimePadraoLog. rewrite !string_length_app.
    rewrite (has_shape_length "DD" _
               (d0_2_shape "DD" (Day t) eq_refl eq_refl ltac:(lia))).
    rewrite (has_shape_length "MM" _
               (d0_2_shape "MM" (Month t) eq_refl eq_refl ltac:(lia))).
    rewrite (has_shape_length "YYYY" _ (d0_4_shape (Year t) Hy)).
    rewrite (has_shape_length "hh" _ (d0_2_shape "hh" (Hour t) eq_refl eq_refl ltac:(lia))).
    rewrite (has_shape_length "mm" _
               (d0_2_shape "mm" (Minute t) eq_refl eq_refl ltac:(lia))).
    rewrite (has_shape_length "ss" _
               (d0_2_shape "ss" (Second t) eq_refl eq_refl ltac:(lia))).
    rewrite d_millis_length by exact Hq.
    cbn [String.length]. lia.
  - rewrite (formataTimePadraoLog_shape t Hv Hy).
    destruct Hv as (_ & _ & _ & _ & _ & Hn).
    rewrite Z.quot_div_nonneg by lia.
    split; intros H.
    + apply Z.div_le_lower_bound; lia.
    + apply Z.nlt_ge. intros Hlt.
      assert (Nanosecond t / 1000000 < 100)
        by (apply Z.div_lt_upper_bound; lia).
      lia.
Qed.

Lemma timestamp_width_witness :
  let t := mkTime 2024 3 5 7 8 9 45000000 in
  valid_time t /\
  0 <= Year t <= 9999 /\
  String.length (formataTimePadraoLog t) = 22%nat /\
  formataTimePadraoLog t = "05/03/2024 07:08:09.45".
Proof.
  intros t.
  assert (Hv : valid_time t) by (unfold valid_time; cbn; lia).
  assert (Hy : 0 <= Year t <= 9999) by (cbn; lia).
  split; [exact Hv |]. split; [exact Hy |].
  split; [exact (proj1 (timestamp_width t Hv Hy)) | reflexivity].
Defined.

(** ** One call, sink by sink *)

Definition is_remote_event (e : event) : bool :=
  match e with
  | EvStackdriver _ _ => true
  | _ => false
  end.

Definition is_console_event (e : event) : bool :=
  match e with
  | EvLock MuxConsole | EvUnlock MuxConsole | EvLogPrintf _ | EvStdout _ => true
  | _ => false
  end.

(** The entries handed to the remote client, in order. *)
Fixpoint remote_writes (tr : list event) : list (logging.Severity * string) :=
  match tr with
  | [] => []
  | EvStackdriver s p :: rest => (s, p) :: remote_writes rest
  | _ :: rest => remote_writes rest
  end.

(** The texts written to the buffer, in order. *)
Fixpoint buffer_writes (tr : list event) : list string :=
  match tr with
  | [] => []
  | EvBufferWrite s :: rest => s :: buffer_writes rest
  | _ :: rest => buffer_writes rest
  end.

Ltac open_after_output :=
  unfold after_output, remote_events, console_events, file_events, file_line,
    message, console_message, remote_active, file_active in *.

(** X5: a call on a logger whose mutexes are free returns and leaves
    everything but the buffer and the clock as it found it: the file system,
    the three enable flags, the path, the remote client and both mutexes.  A
    nil buffer pointer stays nil; a buffer keeps its bytes as a prefix.  The
    clock is read once for each of the console and the file sink that is
    active. *)
Theorem call_frame `{F : fmt.Formatter}
        (m : method) (format : string) (args : list value) (w : World) :
  ready (w_log w) ->
  exists w' : World,
    call m format args w = Ret tt w' /\
    w_fs w' = w_fs w /\
    w_clock w' = w_clock w /\
    enableConsole (w_log w') = enableConsole (w_log w) /\
    enableFile (w_log w') = enableFile (w_log w) /\
    enableStackDriver (w_log w') = enableStackDriver (w_log w) /\
    fileName (w_log w') = fileName (w_log w) /\
    logStackdriver (w_log w') = logStackdriver (w_log w) /\
    muxConsole (w_log w') = muxConsole (w_log w) /\
    muxFile (w_log w') = muxFile (w_log w) /\
    match bufferFile (w_log w) with
    | Some buf => exists line, bufferFile (w_log w') = Some (buf +:+ line)
    | None => bufferFile (w_log w') = None
    end /\
    w_reads w'
    = (w_reads w + (if enableConsole (w_log w) then 1 else 0)
       + (if enableFile (w_log w) && negb (String.eqb (fileName (w_log w)) "")
             && non_nil (bufferFile (w_log w))
          then 1 else 0))%nat.
Proof.
  intros Hready. eexists. split; [now apply call_returns |].
  open_after_output.
  destruct w as [l fs clk r tr]. destruct l as [ec ef es mc mf fn bf ls].
  cbn [w_log w_fs w_clock w_reads w_trace enableConsole enableFile
       enableStackDriver muxConsole muxFile fileName bufferFile logStackdriver].
  destruct ec, ef, (String.eqb fn ""), bf as [buf |];
    cbn [andb negb non_nil option_map set_bufferFile w_log w_fs w_clock w_reads
         enableConsole enableFile enableStackDriver muxConsole muxFile fileName
         bufferFile logStackdriver];
    repeat split; try lia;
    try (eexists; reflexivity);
    try (exists ""; now rewrite string_app_nil_r).
Qed.

Lemma call_frame_witness :
  let w := start (mkLog true true false false false "/tmp/x.log" (Some "old ") None)
                 empty_fs clock0 in
  ready (w_log w) /\
  exists w' : World,
    call MErrof "%d" [VInt 7] w = Ret tt w' /\
    w_fs w' = w_fs w /\ w_reads w' = 2%nat.
Proof.
  intros w.
  assert (Hready : ready (w_log w)) by (split; reflexivity).
  split; [exact Hready |].
  destruct (call_frame MErrof "%d" [VInt 7] w Hready)
    as (w' & R & Hfs & _ & _ & _ & _ & _ & _ & _ & _ & _ & Hreads).
  exists w'. split; [exact R |]. split; [exact Hfs | exact Hreads].
Defined.

(** X6: the events of one call come sink by sink, remote then console then
    file: at most one remote entry, then the console events between [Lock]
    and [Unlock] of the console mutex, then the file events between [Lock]
    and [Unlock] of the file mutex; a part is empty exactly when its sink is
    not active.  The two mutexes are never held together. *)
Theorem call_sink_order `{F : fmt.Formatter}
        (m : method) (format : string) (args : list value) (w : World) :
  ready (w_log w) ->
  exists (w' : World) (r c f : list event),
    call m format args w = Ret tt w' /\
    w_trace w' = (w_trace w ++ r ++ c ++ f)%list /\
    forallb is_remote_event r = true /\
    forallb is_console_event c = true /\
    forallb touches_file f = true /\
    (length r <= 1)%nat /\
    (r = [] <-> remote_active (w_log w) = false) /\
    (c = [] <-> enableConsole (w_log w) = false) /\
    (f = [] <-> file_active (w_log w) = false) /\
    (c <> [] ->
     head c = Some (EvLock MuxConsole) /\ last c = Some (EvUnlock MuxConsole)) /\
    (f <> [] ->
     head f = Some (EvLock MuxFile) /\ last f = Some (EvUnlock MuxFile)).
Proof.
  intros Hready.
  exists (after_output w (dispatched m) (passed_format m format) args),
    (remote_events (w_log w) (dispatched m) (passed_format m format) args),
    (console_events (w_log w) (dispatched m) (passed_format m format) args
       (w_clock w (w_reads w))),
    (file_events (w_log w) (dispatched m) (passed_format m format) args
       (w_clock w (if enableConsole (w_log w) then S (w_reads w) else w_reads w))).
  split; [now apply call_returns |].
  split; [reflexivity |].
  unfold remote_events, console_events, file_events.
  destruct (remote_active (w_log w)), (enableConsole (w_log w)),
    (file_active (w_log w));
    cbn [forallb is_remote_event is_console_event touches_file andb length
         head last];
    repeat split; try discriminate; try lia; try congruence; auto.
Qed.

Lemma call_sink_order_witness :
  let w := start (mkLog true true false false false "/tmp/x.log" (Some "") None)
                 empty_fs clock0 in
  ready (w_log w) /\
  exists w' : World,
    call MAlert "" [VString "a"] w = Ret tt w' /\
    exists c f : list event,
      w_trace w' = (c ++ f)%list /\
      head c = Some (EvLock MuxConsole) /\ last c = Some (EvUnlock MuxConsole) /\
      head f = Some (EvLock MuxFile) /\ last f = Some (EvUnlock MuxFile).
Proof.
  intros w.
  assert (Hready : ready (w_log w)) by (split; reflexivity).
  split; [exact Hready |].
  destruct (call_sink_order MAlert "" [VString "a"] w Hready)
    as (w' & r & c & f & R & T & _ & _ & _ & _ & Hr & Hc & Hf & Bc & Bf).
  exists w'. split; [exact R |]. exists c, f.
  assert (Er : r = []) by (apply Hr; reflexivity).
  subst r. split; [exact T |].
  assert (Nc : c <> []) by (intros E; apply Hc in E; discriminate).
  assert (Nf : f <> []) by (intros E; apply Hf in E; discriminate).
  destruct (Bc Nc) as [B1 B2]. destruct (Bf Nf) as [B3 B4]. auto.
Defined.

(** X7: the remote sink.  When [enableStackDriver] is set and the client is
    not nil, a call hands the client exactly one entry: the severity the
    method dispatches with and, as payload, [fmt.Sprint] of the arguments for
    an empty format and [fmt.Sprintf] otherwise, without tag and without
    timestamp.  When the flag is off or the client is nil, the call returns
    all the same and hands over nothing. *)
Theorem call_remote_entry `{F : fmt.Formatter}
        (m : method) (format : string) (args : list value) (w : World) :
  ready (w_log w) ->
  exists (w' : World) (new : list event),
    call m format args w = Ret tt w' /\
    w_trace w' = (w_trace w ++ new)%list /\
    remote_writes new
    = if enableStackDriver (w_log w) && non_nil (logStackdriver (w_log w))
      then [(dispatched m,
             if String.eqb (passed_format m format) ""
             then fmt.Sprint args
             else fmt.Sprintf (passed_format m format) args)]
      else [].
Proof.
  intros Hready. eexists. eexists.
  split; [now apply call_returns |]. split; [reflexivity |].
  open_after_output.
  destruct (enableStackDriver (w_log w) && non_nil (logStackdriver (w_log w))),
    (enableConsole (w_log w)),
    (enableFile (w_log w) && negb (String.eqb (fileName (w_log w)) "")
       && non_nil (bufferFile (w_log w)));
    reflexivity.
Qed.

Lemma call_remote_entry_witness :
  let w := start (mkLog false false true false false "" None
                        (Some (logging_client.Client 0)))
                 empty_fs clock0 in
  ready (w_log w) /\
  exists w' : World,
    call MAlertf "%s down" [VString "db"] w = Ret tt w' /\
    remote_writes (w_trace w') = [(logging.Alert, "db down")].
Proof.
  intros w.
  assert (Hready : ready (w_log w)) by (split; intros; discriminate).
  split; [exact Hready |].
  destruct (call_remote_entry MAlertf "%s down" [VString "db"] w Hready)
    as (w' & new & R & T & Hrem).
  exists w'. split; [exact R |]. rewrite T. exact Hrem.
Defined.

(** X8: an empty format makes a formatted method behave as a plain one.
    For every method, formatted ones included, the call with the format [""]
    renders the arguments with [fmt.Sprint], a space between two neighbours
    of which neither is a string: that text is the payload of the remote
    entry and the message written to the buffer. *)
Theorem empty_format_is_plain `{F : fmt.Formatter}
        (m : method) (args : list value) (w : World) :
  ready (w_log w) ->
  exists (w' : World) (new : list event),
    call m "" args w = Ret tt w' /\
    w_trace w' = (w_trace w ++ new)%list /\
    (remote_active (w_log w) = true ->
     remote_writes new = [(dispatched m, with_spaces args)]) /\
    (file_active (w_log w) = true ->
     exists t : Time,
       buffer_writes new
       = [formats_at (dispatched m); formataTimePadraoLog t +:+ ": ";
          with_spaces args; newline]).
Proof.
  intros Hready. eexists. eexists.
  split; [now apply call_returns |]. split; [reflexivity |].
  assert (E : passed_format m "" = "") by (unfold passed_format; destruct (is_plain m); reflexivity).
  rewrite E. unfold remote_events, console_events, file_events, message.
  cbn [String.eqb]. rewrite Sprint_with_spaces.
  split.
  - intros ->. destruct (enableConsole (w_log w)), (file_active (w_log w));
      reflexivity.
  - intros ->.
    destruct (remote_active (w_log w)), (enableConsole (w_log w));
      eexists; reflexivity.
Qed.

Lemma empty_format_is_plain_witness :
  let w := start file_logger empty_fs clock0 in
  ready (w_log w) /\
  exists w' : World,
    call MWarnf "" [VInt 1; VInt 2] w = Ret tt w' /\
    buffer_writes (w_trace w')
    = ["[WARN] "; "05/03/2024 07:08:09.123: "; "1 2"; newline] /\
    fmt.Sprintf "" [VInt 1; VInt 2] = "%!(EXTRA int=1, int=2)".
Proof.
  intros w.
  assert (Hready : ready (w_log w)) by (split; reflexivity).
  split; [exact Hready |].
  destruct (empty_format_is_plain MWarnf [VInt 1; VInt 2] w Hready)
    as (w' & new & R & T & _ & Hfile).
  exists w'. split; [exact R |]. split; [| reflexivity].
  destruct (Hfile eq_refl) as (t & Hb).
  assert (E : Ret tt w'
              = Ret tt (after_output w (dispatched MWarnf)
                          (passed_format MWarnf "") [VInt 1; VInt 2])).
  { rewrite <- R. apply call_returns. exact Hready. }
  injection E as ->. reflexivity.
Defined.

(** X9: with the console and the file sink both active, one call gives the
    tag to [log.Printf] and to the buffer, prints on standard output and
    writes to the buffer the same newline and, for a format that is not
    empty, the same message; with an empty format the two messages agree when
    the text holds no ['%'].  The two timestamps come from two successive
    readings of the clock, the console's first. *)
Theorem console_and_file_agree `{F : fmt.Formatter}
        (m : method) (format : string) (args : list value) (w : World) :
  ready (w_log w) ->
  enableConsole (w_log w) = true ->
  file_active (w_log w) = true ->
  exists (w' : World) (new : list event) (cmsg msg : string),
    call m format args w = Ret tt w' /\
    w_trace w' = (w_trace w ++ new)%list /\
    logger_writes new = [formats_at (dispatched m)] /\
    stdout_writes new
    = [formataTimePadraoLog (w_clock w (w_reads w)) +:+ ": "; cmsg; newline] /\
    buffer_writes new
    = [formats_at (dispatched m);
       formataTimePadraoLog (w_clock w (S (w_reads w))) +:+ ": "; msg; newline] /\
    (passed_format m format <> "" -> cmsg = msg) /\
    (fmt.percent_free msg = true -> cmsg = msg).
Proof.
  intros Hready Hc Hf. eexists. eexists.
  exists (console_message (passed_format m format) args),
    (message (passed_format m format) args).
  split; [now apply call_returns |]. split; [reflexivity |].
  unfold after_output. cbn [w_trace].
  unfold remote_events, console_events, file_events. rewrite Hc, Hf.
  split; [destruct (remote_active (w_log w)); reflexivity |].
  split; [destruct (remote_active (w_log w)); reflexivity |].
  split; [destruct (remote_active (w_log w)); reflexivity |].
  unfold console_message, message.
  split.
  - intros Hne. apply String.eqb_neq in Hne. now rewrite Hne.
  - destruct (String.eqb (passed_format m format) ""); [| reflexivity].
    intros Hpf. now apply fmt.Sprintf_verbatim.
Qed.

Lemma console_and_file_agree_witness :
  let w := start (mkLog true true false false false "/tmp/x.log" (Some "") None)
                 empty_fs
                 (fun n => mkTime 2024 3 5 7 8 9 (Z.of_nat n * 1000000 + 100000000)) in
  ready (w_log w) /\
  enableConsole (w_log w) = true /\
  file_active (w_log w) = true /\
  exists w' : World,
    call MNoticef "%s-%s" [VString "a"; VString "b"] w = Ret tt w' /\
    stdout_writes (w_trace w') = ["05/03/2024 07:08:09.100: "; "a-b"; newline] /\
    buffer_writes (w_trace w')
    = ["[NOTICE] "; "05/03/2024 07:08:09.101: "; "a-b"; newline].
Proof.
  intros w.
  assert (Hready : ready (w_log w)) by (split; reflexivity).
  split; [exact Hready |]. split; [reflexivity |]. split; [reflexivity |].
  destruct (console_and_file_agree MNoticef "%s-%s" [VString "a"; VString "b"] w
              Hready eq_refl eq_refl)
    as (w' & new & cmsg & msg & R & T & _ & Hs & Hb & Hfmt & _).
  exists w'. split; [exact R |].
  assert (E : Ret tt w'
              = Ret tt (after_output w (dispatched MNoticef)
                          (passed_format MNoticef "%s-%s")
                          [VString "a"; VString "b"])).
  { rewrite <- R. apply call_returns. exact Hready. }
  injection E as ->. split; reflexivity.
Defined.

(** ** Runs of calls and ticks *)

(** The flags, the path, the client and whether there is a buffer. *)
Definition same_config (l l' : Log) : Prop :=
  enableConsole l' = enableConsole l /\
  enableFile l' = enableFile l /\
  enableStackDriver l' = enableStackDriver l /\
  fileName l' = fileName l /\
  logStackdriver l' = logStackdriver l /\
  non_nil (bufferFile l') = non_nil (bufferFile l).

(** The events a logger with the configuration of [l] can produce: those of
    its active sinks and, with a flush task, those of a tick, whose
    [WriteFile] is for the logger's path, which is then not empty. *)
Definition allowed (flusher : bool) (l : Log) (e : event) : bool :=
  match e with
  | EvStackdriver _ _ => remote_active l
  | EvLock MuxConsole | EvUnlock MuxConsole | EvLogPrintf _ | EvStdout _ =>
      enableConsole l
  | EvBufferWrite _ => file_active l
  | EvLock MuxFile | EvUnlock MuxFile => file_active l || flusher
  | EvBufferReset => flusher
  | EvWriteFile name _ _ =>
      flusher && String.eqb name (fileName l) && negb (String.eqb name "")
  end.

(** The calls of [WriteFile], in order: path, data, success. *)
Fixpoint file_writes (tr : list event) : list (string * string * bool) :=
  match tr with
  | [] => []
  | EvWriteFile name data ok :: rest => (name, data, ok) :: file_writes rest
  | _ :: rest => file_writes rest
  end.

Lemma same_config_refl (l : Log) : same_config l l.
Proof. repeat split. Qed.

Lemma same_config_trans (l1 l2 l3 : Log) :
  same_config l1 l2 -> same_config l2 l3 -> same_config l1 l3.
Proof.
  unfold same_config. intros (?&?&?&?&?&?) (?&?&?&?&?&?).
  repeat split; congruence.
Qed.

Lemma allowed_same_config (flusher : bool) (l l' : Log) (e : event) :
  same_config l l' -> allowed flusher l' e = allowed flusher l e.
Proof.
  intros (Hc & Hf & Hs & Hn & Hl & Hb).
  unfold allowed, remote_active, file_active.
  now rewrite Hc, Hf, Hs, Hn, Hl, Hb.
Qed.

Lemma forallb_imp {A : Type} (P Q : A -> bool) (l : list A) :
  (forall x, P x = true -> Q x = true) ->
  forallb P l = true -> forallb Q l = true.
Proof.
  intros H. induction l as [| x l IH]; [reflexivity |].
  cbn [forallb]. rewrite !andb_true_iff. intros [Hx Hl]. auto.
Qed.

Section RunFacts.

Context `{F : fmt.Formatter}.

(** What one action does to a quiescent logger. *)
Lemma step_within (flusher : bool) (a : action) (w : World) :
  quiescent flusher (w_log w) ->
  exists (w' : World) (new : list event),
    run_action flusher a w = Ret tt w' /\
    quiescent flusher (w_log w') /\
    same_config (w_log w) (w_log w') /\
    w_trace w' = (w_trace w ++ new)%list /\
    forallb (allowed flusher (w_log w)) new = true /\
    denied (w_fs w') = denied (w_fs w) /\
    (forall p, p <> fileName (w_log w) ->
               files (w_fs w') !! p = files (w_fs w) !! p) /\
    w_clock w' = w_clock w.
Proof.
  intros Hq. pose proof Hq as (Hc & Hf & Hb).
  destruct a as [m format args |]; cbn [run_action].
  - eexists. eexists.
    split; [apply call_returns; eapply quiescent_ready; eauto |].
    unfold after_output, remote_events, console_events, file_events.
    cbn [w_log w_fs w_clock w_trace].
    split; [| split; [| split; [reflexivity |]]].
    + destruct (file_active (w_log w)); [| exact Hq].
      destruct (w_log w) as [ec ef es mc mf fn bf ls]. cbn in *.
      repeat split; auto.
      intros Hfl. specialize (Hb Hfl). destruct bf; [discriminate | congruence].
    + destruct (file_active (w_log w)); [| apply same_config_refl].
      destruct (w_log w) as [ec ef es mc mf fn bf ls].
      unfold same_config. cbn. repeat split. now destruct bf.
    + split; [| repeat split].
      unfold allowed.
      destruct (remote_active (w_log w)), (enableConsole (w_log w)),
        (file_active (w_log w)); reflexivity.
  - destruct flusher.
    + destruct (bufferFile (w_log w)) as [buf |] eqn:Eb;
        [| now destruct (Hb eq_refl)].
      exists (after_tick w buf). eexists.
      split; [now apply flushLogFile_tick_returns |].
      unfold after_tick. cbn [w_log w_fs w_clock w_trace].
      split; [| split; [| split; [reflexivity |]]].
      * destruct (w_log w) as [ec ef es mc mf fn bf ls]. cbn in *.
        repeat split; auto; discriminate.
      * destruct (w_log w) as [ec ef es mc mf fn bf ls]. cbn in *.
        unfold same_config. cbn. repeat split. now rewrite Eb.
      * split; [| split; [| split; [| reflexivity]]].
        -- unfold allowed.
           destruct (tick_writes (w_log w) buf) eqn:Ew;
             cbn [app forallb andb]; rewrite !orb_true_r; [| reflexivity].
           apply tick_writes_iff in Ew as [_ Hn].
           apply String.eqb_neq in Hn.
           now rewrite String.eqb_refl, Hn.
        -- destruct (tick_writes (w_log w) buf
                     && writable (w_fs w) (fileName (w_log w))); reflexivity.
        -- intros p Hp.
           destruct (tick_writes (w_log w) buf
                     && writable (w_fs w) (fileName (w_log w))); [| reflexivity].
           cbn [files]. apply lookup_insert_ne. congruence.
    + exists w, []. cbn [mret M_ret]. rewrite app_nil_r.
      split; [reflexivity |]. split; [exact Hq |].
      split; [apply same_config_refl |]. repeat split.
Qed.

(** What a run does to a quiescent logger. *)
Lemma run_within (flusher : bool) (acts : list action) :
  forall w : World,
    quiescent flusher (w_log w) ->
    exists (w' : World) (new : list event),
      run flusher acts w = Ret tt w' /\
      quiescent flusher (w_log w') /\
      same_config (w_log w) (w_log w') /\
      w_trace w' = (w_trace w ++ new)%list /\
      forallb (allowed flusher (w_log w)) new = true /\
      denied (w_fs w') = denied (w_fs w) /\
      (forall p, p <> fileName (w_log w) ->
                 files (w_fs w') !! p = files (w_fs w) !! p) /\
      w_clock w' = w_clock w.
Proof.
  induction acts as [| a acts IH]; intros w Hq.
  - exists w, []. cbn [run mret M_ret]. rewrite app_nil_r.
    split; [reflexivity |]. split; [exact Hq |].
    split; [apply same_config_refl |]. repeat split.
  - destruct (step_within flusher a w Hq)
      as (w1 & n1 & R1 & Q1 & C1 & T1 & A1 & D1 & P1 & K1).
    destruct (IH w1 Q1) as (w2 & n2 & R2 & Q2 & C2 & T2 & A2 & D2 & P2 & K2).
    exists w2, (n1 ++ n2)%list.
    split; [cbn [run]; unfold mbind, M_bind; rewrite R1; exact R2 |].
    split; [exact Q2 |].
    split; [eapply same_config_trans; eauto |].
    split; [rewrite T2, T1, app_assoc; reflexivity |].
    split.
    { rewrite forallb_app, A1. cbn [andb].
      eapply forallb_imp; [| exact A2].
      intros e He. now rewrite <- (allowed_same_config flusher _ _ e C1). }
    split; [congruence |].
    split; [| congruence].
    intros p Hp. rewrite P2, P1; [reflexivity | exact Hp |].
    destruct C1 as (_ & _ & _ & -> & _). exact Hp.
Qed.

End RunFacts.

Lemma allowed_file_writes (flusher : bool) (l : Log) (tr : list event) :
  forallb (allowed flusher l) tr = true ->
  forall name data ok,
    In (name, data, ok) (file_writes tr) -> name = fileName l /\ name <> "".
Proof.
  induction tr as [| e tr IH]; intros H name data ok Hin; [destruct Hin |].
  cbn [forallb] in H. apply andb_true_iff in H as [He Htr].
  destruct e; cbn [file_writes] in Hin; try (now apply (IH Htr name data ok)).
  destruct Hin as [Heq | Hin]; [| now apply (IH Htr name data ok)].
  injection Heq as <- <- <-. cbn [allowed] in He.
  apply andb_true_iff in He as [He Hne]. apply andb_true_iff in He as [_ He].
  apply String.eqb_eq in He. apply string_eqb_nonempty in Hne. auto.
Qed.

Lemma remote_writes_none (P : event -> bool) (tr : list event) :
  (forall s p, P (EvStackdriver s p) = false) ->
  forallb P tr = true -> remote_writes tr = [].
Proof.
  intros HP. induction tr as [| e tr IH]; [reflexivity |].
  cbn [forallb]. rewrite andb_true_iff. intros [He Htr].
  destruct e; cbn [remote_writes]; auto. now rewrite HP in He.
Qed.

(** X10: the logger [NewLogFile] builds, with its flush task.  Every run of
    calls and ticks returns, so no call and no tick ever waits for a mutex,
    and leaves both mutexes free.  All its events are those of the file sink
    and of the flush: nothing goes to the console, to package [log] or to
    the remote client.  Every [WriteFile] is for the configured path, which
    is then not empty; the files at other paths are as before. *)
Theorem NewLogFile_logger_run `{F : fmt.Formatter}
        (c : FileConfig.t) (l : Log) (fs : FS) (clock : nat -> Time)
        (acts : list action) :
  NewLogFile (Some c) = Some l ->
  exists w' : World,
    run true acts (start l fs clock) = Ret tt w' /\
    muxConsole (w_log w') = false /\
    muxFile (w_log w') = false /\
    fileName (w_log w') = FileConfig.FileName c /\
    forallb touches_file (w_trace w') = true /\
    remote_writes (w_trace w') = [] /\
    (forall name data ok,
        In (name, data, ok) (file_writes (w_trace w')) ->
        name = FileConfig.FileName c /\ name <> "") /\
    (forall p, p <> FileConfig.FileName c ->
               files (w_fs w') !! p = files fs !! p).
Proof.
  intros Hl. injection Hl as <-.
  set (l := {| enableConsole := false; enableFile := true;
               enableStackDriver := false; muxConsole := false;
               muxFile := false; fileName := FileConfig.FileName c;
               bufferFile := Some ""; logStackdriver := None |}).
  assert (Hq : quiescent true (w_log (start l fs clock)))
    by (repeat split; discriminate).
  destruct (run_within true acts (start l fs clock) Hq)
    as (w' & new & R & (Qc & Qf & _) & C & T & A & _ & P & _).
  cbn [start w_trace w_log w_fs app] in T, A, P.
  exists w'. split; [exact R |]. split; [exact Qc |]. split; [exact Qf |].
  split; [destruct C as (_ & _ & _ & -> & _); reflexivity |].
  rewrite T.
  assert (Hfile : forallb touches_file new = true).
  { eapply forallb_imp; [| exact A].
    intros [[] | [] | | | | | |]; cbn; auto. }
  split; [exact Hfile |].
  split; [eapply remote_writes_none; [| exact Hfile]; reflexivity |].
  split; [exact (allowed_file_writes true l new A) | exact P].
Qed.

Lemma NewLogFile_logger_run_witness :
  let c := FileConfig.mk "/tmp/x.log" in
  NewLogFile (Some c) = Some file_logger /\
  exists w' : World,
    run true [ACall MInfo "" [VString "a"]; ATick; ATick]
        (start file_logger empty_fs clock0) = Ret tt w' /\
    muxFile (w_log w') = false /\
    files (w_fs w') !! "/var/other" = None.
Proof.
  intros c. split; [reflexivity |].
  destruct (NewLogFile_logger_run c file_logger empty_fs clock0
              [ACall MInfo "" [VString "a"]; ATick; ATick] eq_refl)
    as (w' & R & _ & Hm & _ & _ & _ & _ & P).
  exists w'. split; [exact R |]. split; [exact Hm |].
  rewrite P by discriminate. reflexivity.
Defined.

(** X11: the logger [NewLogConsole] builds.  Every run of calls on it
    returns with the console mutex free, and all its events are those of the
    console sink: the remote client, which no constructor sets, receives
    nothing. *)
Theorem NewLogConsole_logger_run `{F : fmt.Formatter}
        (c : option ConsoleConfig.t) (fs : FS) (clock : nat -> Time)
        (acts : list action) :
  exists w' : World,
    run false acts (start (NewLogConsole c) fs clock) = Ret tt w' /\
    muxConsole (w_log w') = false /\
    forallb is_console_event (w_trace w') = true /\
    remote_writes (w_trace w') = [].
Proof.
  assert (Hq : quiescent false (w_log (start (NewLogConsole c) fs clock)))
    by (repeat split; discriminate).
  destruct (run_within false acts (start (NewLogConsole c) fs clock) Hq)
    as (w' & new & R & (Qc & _) & _ & T & A & _).
  cbn [start w_trace w_log app] in T, A.
  exists w'. split; [exact R |]. split; [exact Qc |].
  rewrite T.
  assert (Hcon : forallb is_console_event new = true).
  { eapply forallb_imp; [| exact A].
    intros [[] | [] | | | | | |]; cbn; auto. }
  split; [exact Hcon |].
  eapply remote_writes_none; [| exact Hcon]. reflexivity.
Qed.

(** ** A file logger without a path *)

(** The logger [NewLogFile(&FileConfig{FileName: ""})] returns. *)
Definition pathless_logger : Log :=
  {| enableConsole := false;
     enableFile := true;
     enableStackDriver := false;
     muxConsole := false;
     muxFile := false;
     fileName := "";
     bufferFile := Some "";
     logStackdriver := None |}.

Section Pathless.

Context `{F : fmt.Formatter}.

Lemma pathless_step (a : action) (w : World) :
  w_log w = pathless_logger ->
  exists (w' : World) (new : list event),
    run_action true a w = Ret tt w' /\
    w_log w' = pathless_logger /\ w_fs w' = w_fs w /\
    w_trace w' = (w_trace w ++ new)%list /\
    buffer_writes new = [] /\ file_writes new = [].
Proof.
  intros Hl. destruct a as [m format args |]; cbn [run_action].
  - rewrite call_returns by (rewrite Hl; split; intros; discriminate).
    eexists. eexists. split; [reflexivity |].
    open_after_output. rewrite Hl. cbn. rewrite ?Hl. repeat split.
  - rewrite (flushLogFile_tick_returns w "") by (rewrite Hl; reflexivity).
    eexists. eexists. split; [reflexivity |].
    unfold after_tick, tick_writes. rewrite Hl. cbn. repeat split.
Qed.

Lemma pathless_run (acts : list action) :
  forall w : World,
    w_log w = pathless_logger ->
    exists (w' : World) (new : list event),
      run true acts w = Ret tt w' /\
      w_log w' = pathless_logger /\ w_fs w' = w_fs w /\
      w_trace w' = (w_trace w ++ new)%list /\
      buffer_writes new = [] /\ file_writes new = [].
Proof.
  induction acts as [| a acts IH]; intros w Hl.
  - exists w, []. cbn. rewrite app_nil_r. repeat split. exact Hl.
  - destruct (pathless_step a w Hl) as (w1 & n1 & R1 & L1 & F1 & T1 & B1 & W1).
    destruct (IH w1 L1) as (w2 & n2 & R2 & L2 & F2 & T2 & B2 & W2).
    exists w2, (n1 ++ n2)%list.
    split; [cbn [run]; unfold mbind, M_bind; rewrite R1; exact R2 |].
    split; [exact L2 |]. split; [congruence |].
    split; [rewrite T2, T1, app_assoc; reflexivity |].
    assert (Bapp : forall a b, buffer_writes (a ++ b)
                               = (buffer_writes a ++ buffer_writes b)%list).
    { intros a0 b. induction a0 as [| e a0 IHa]; [reflexivity |].
      destruct e; cbn; rewrite ?IHa; reflexivity. }
    assert (Wapp : forall a b, file_writes (a ++ b)
                               = (file_writes a ++ file_writes b)%list).
    { intros a0 b. induction a0 as [| e a0 IHa]; [reflexivity |].
      destruct e; cbn; rewrite ?IHa; reflexivity. }
    rewrite Bapp, Wapp, B1, B2, W1, W2. split; reflexivity.
Qed.

End Pathless.

(** X12: a logger built by [NewLogFile] from an empty path has the file
    sink enabled and a buffer, and yet is inert: over every run of calls and
    ticks the logger stays exactly as built, with an empty buffer, nothing
    is written to the buffer, [WriteFile] is never called and the file
    system stays the initial one. *)
Theorem pathless_logger_is_inert `{F : fmt.Formatter}
        (l : Log) (fs : FS) (clock : nat -> Time) (acts : list action) :
  NewLogFile (Some (FileConfig.mk "")) = Some l ->
  exists w' : World,
    run true acts (start l fs clock) = Ret tt w' /\
    w_log w' = l /\
    bufferFile (w_log w') = Some "" /\
    w_fs w' = fs /\
    buffer_writes (w_trace w') = [] /\
    file_writes (w_trace w') = [].
Proof.
  intros Hl. injection Hl as <-.
  destruct (pathless_run acts (start pathless_logger fs clock) eq_refl)
    as (w' & new & R & L & Fs & T & B & W).
  exists w'. split; [exact R |]. split; [exact L |].
  split; [rewrite L; reflexivity |]. split; [exact Fs |].
  rewrite T. split; [exact B | exact W].
Qed.

Lemma pathless_logger_is_inert_witness :
  NewLogFile (Some (FileConfig.mk "")) = Some pathless_logger /\
  exists w' : World,
    run true [ACall MErro "" [VString "lost"]; ATick]
        (start pathless_logger empty_fs clock0) = Ret tt w' /\
    w_fs w' = empty_fs /\
    buffer_writes (w_trace w') = [].
Proof.
  split; [reflexivity |].
  destruct (pathless_logger_is_inert pathless_logger empty_fs clock0
              [ACall MErro "" [VString "lost"]; ATick] eq_refl)
    as (w' & R & _ & _ & Fs & B & _).
  exists w'. split; [exact R |]. split; [exact Fs | exact B].
Defined.

(** ** From calls to the file *)

(** A run made of calls only; a call is a method, a format and arguments. *)
Definition calls (cs : list (method * string * list value)) : list action :=
  map (fun c => ACall c.1.1 c.1.2 c.2) cs.

Section Lines.

Context `{F : fmt.Formatter}.

(** The lines the file sink appends for a sequence of calls, the first
    call first.  [r] counts the readings of the clock so far; a call reads the
    clock for the console first when [console] is set, then for the line. *)
Fixpoint lines_of (console : bool) (clock : nat -> Time) (r : nat)
         (cs : list (method * string * list value)) : string :=
  match cs with
  | [] => ""
  | c :: rest =>
      let r' := if console then S r else r in
      (formats_at (dispatched c.1.1) +:+ formataTimePadraoLog (clock r') +:+ ": "
       +:+ (if String.eqb (passed_format c.1.1 c.1.2) ""
            then fmt.Sprint c.2
            else fmt.Sprintf (passed_format c.1.1 c.1.2) c.2)
       +:+ newline)
      +:+ lines_of console clock (S r') rest
  end.

Lemma lines_of_nonempty (console : bool) (clock : nat -> Time) (r : nat)
      (cs : list (method * string * list value)) (buf : string) :
  cs <> [] -> (0 <? String.length (buf +:+ lines_of console clock r cs))%nat = true.
Proof.
  destruct cs as [| c rest]; [congruence |]. intros _.
  cbn [lines_of]. rewrite !string_length_app. cbn [newline String.length].
  apply Nat.ltb_lt. lia.
Qed.

Lemma run_app (flusher : bool) (a1 a2 : list action) (w : World) :
  run flusher (a1 ++ a2) w
  = match run flusher a1 w with
    | Ret _ w1 => run flusher a2 w1
    | Blocked w1 => Blocked w1
    end.
Proof.
  revert w. induction a1 as [| a a1 IH]; intros w; [reflexivity |].
  cbn [app run]. unfold mbind, M_bind.
  destruct (run_action flusher a w) as [[] w1 | w1]; [apply IH | reflexivity].
Qed.

(** A run of calls on a logger whose file sink is active. *)
Lemma run_calls (flusher ec es mc : bool) (fn : string)
      (ls : option logging_client.Logger) (fs : FS) (clk : nat -> Time)
      (cs : list (method * string * list value)) :
  (ec = true -> mc = false) ->
  String.eqb fn "" = false ->
  forall (buf : string) (r : nat) (tr : list event),
  exists (r' : nat) (tr' : list event),
    run flusher (calls cs)
        (mkWorld (mkLog ec true es mc false fn (Some buf) ls) fs clk r tr)
    = Ret tt (mkWorld (mkLog ec true es mc false fn
                             (Some (buf +:+ lines_of ec clk r cs)) ls)
                      fs clk r' tr').
Proof.
  intros Hmc Hfn. induction cs as [| c cs IH]; intros buf r tr.
  - exists r, tr. cbn [calls map run lines_of]. now rewrite string_app_nil_r.
  - destruct c as [[m format] args].
    cbn [calls map run run_action fst snd]. unfold mbind, M_bind.
    rewrite call_returns
      by (split; cbn [w_log enableConsole muxConsole muxFile]; auto).
    unfold after_output, file_active, file_line, message.
    cbn [w_log w_fs w_clock w_reads w_trace enableConsole enableFile fileName
         bufferFile non_nil andb].
    rewrite Hfn. cbn [negb andb option_map set_bufferFile enableConsole
                      enableFile enableStackDriver muxConsole muxFile fileName
                      bufferFile logStackdriver].
    unfold set_bufferFile.
    cbn [enableConsole enableFile enableStackDriver muxConsole muxFile
         fileName bufferFile logStackdriver].
    change (map _ cs) with (calls cs).
    match goal with
    | |- context [run flusher (calls cs)
                      (mkWorld (mkLog _ _ _ _ _ _ (Some ?b) _) _ _ ?r1 ?t1)] =>
        destruct (IH b r1 t1) as (r' & tr' & R)
    end.
    exists r', tr'. rewrite R.
    cbn [lines_of fst snd]. rewrite !string_app_assoc. reflexivity.
Qed.

End Lines.

Lemma file_active_fields (l : Log) :
  file_active l = true ->
  enableFile l = true /\ String.eqb (fileName l) "" = false
  /\ exists buf, bufferFile l = Some buf.
Proof.
  unfold file_active. rewrite !andb_true_iff, negb_true_iff.
  intros [[He Hn] Hb]. repeat split; auto.
  destruct (bufferFile l) as [buf |]; [eauto | discriminate].
Qed.

(** X13: on a logger whose file sink is active, a run of calls returns
    with the buffer holding what it held followed by one line per call, in
    the order of the calls, each line being tag, timestamp, [": "], message
    and newline; the file system is not touched. *)
Theorem calls_accumulate_in_order `{F : fmt.Formatter}
        (flusher : bool) (cs : list (method * string * list value))
        (w : World) (buf : string) :
  file_active (w_log w) = true ->
  ready (w_log w) ->
  bufferFile (w_log w) = Some buf ->
  exists w' : World,
    run flusher (calls cs) w = Ret tt w' /\
    bufferFile (w_log w')
    = Some (buf +:+ lines_of (enableConsole (w_log w)) (w_clock w) (w_reads w) cs) /\
    w_fs w' = w_fs w.
Proof.
  intros Ha [Hc Hf] Hb. specialize (Hf Ha).
  destruct (file_active_fields _ Ha) as (He & Hn & _).
  destruct w as [l fs clk r tr]. destruct l as [ec ef es mc mf fn bf ls].
  cbn in Hc, Hf, Hb, He, Hn. subst ef mf bf.
  destruct (run_calls flusher ec es mc fn ls fs clk cs Hc Hn buf r tr)
    as (r' & tr' & R).
  eexists. split; [exact R |]. split; reflexivity.
Qed.

Lemma calls_accumulate_in_order_witness :
  let w := start (mkLog true true false false false "/tmp/x.log" (Some "old|") None)
                 empty_fs clock0 in
  file_active (w_log w) = true /\
  ready (w_log w) /\
  bufferFile (w_log w) = Some "old|" /\
  exists w' : World,
    run true (calls [(MInfo, "", [VString "one"]); (MErrof, "%d", [VInt 2])]) w
    = Ret tt w' /\
    bufferFile (w_log w')
    = Some ("old|[INFO] 05/03/2024 07:08:09.123: one" +:+ newline +:+
            "[ERROR] 05/03/2024 07:08:09.123: 2" +:+ newline).
Proof.
  intros w.
  assert (Hready : ready (w_log w)) by (split; reflexivity).
  split; [reflexivity |]. split; [exact Hready |]. split; [reflexivity |].
  destruct (calls_accumulate_in_order true
              [(MInfo, "", [VString "one"]); (MErrof, "%d", [VInt 2])]
              w "old|" eq_refl Hready eq_refl)
    as (w' & R & B & _).
  exists w'. split; [exact R |]. rewrite B. reflexivity.
Defined.

(** X14: calls, then a tick.  On a logger whose file sink is active and
    whose path can be written, after at least one call the next tick leaves
    in the file exactly the bytes buffered before the calls followed by the
    lines of the calls, whatever the file held before, and empties the
    buffer; files at other paths are as before. *)
Theorem flush_writes_buffered_lines `{F : fmt.Formatter}
        (cs : list (method * string * list value)) (w : World) (buf : string) :
  file_active (w_log w) = true ->
  ready (w_log w) ->
  bufferFile (w_log w) = Some buf ->
  fileName (w_log w) ∉ denied (w_fs w) ->
  cs <> [] ->
  exists w' : World,
    run true (calls cs ++ [ATick]) w = Ret tt w' /\
    files (w_fs w') !! fileName (w_log w)
    = Some (buf +:+ lines_of (enableConsole (w_log w)) (w_clock w) (w_reads w) cs) /\
    bufferFile (w_log w') = Some "" /\
    (forall p, p <> fileName (w_log w) ->
               files (w_fs w') !! p = files (w_fs w) !! p).
Proof.
  intros Ha [Hc Hf] Hb Hden Hcs. specialize (Hf Ha).
  destruct (file_active_fields _ Ha) as (He & Hn & _).
  destruct w as [l fs clk r tr]. destruct l as [ec ef es mc mf fn bf ls].
  cbn in Hc, Hf, Hb, He, Hn, Hden. subst ef mf bf.
  cbn [w_log w_fs w_clock w_reads enableConsole fileName].
  destruct (run_calls true ec es mc fn ls fs clk cs Hc Hn buf r tr)
    as (r' & tr' & R).
  rewrite run_app, R. cbn [run]. unfold mbind, M_bind.
  rewrite (flushLogFile_tick_returns _ (buf +:+ lines_of ec clk r cs))
    by reflexivity.
  cbn [mret M_ret]. eexists. split; [reflexivity |].
  unfold after_tick, tick_writes, writable.
  cbn [w_log w_fs fileName bufferFile set_bufferFile].
  rewrite (lines_of_nonempty ec clk r cs buf Hcs), Hn.
  rewrite bool_decide_eq_false_2 by exact Hden.
  cbn [andb negb files].
  split; [apply lookup_insert_eq |]. split; [reflexivity |].
  intros p Hp. apply lookup_insert_ne. congruence.
Qed.

Lemma flush_writes_buffered_lines_witness :
  let w := mkWorld
             (mkLog false true false false false "/tmp/x.log" (Some "") None)
             (mkFS {[ "/tmp/x.log" := "previous content" ]} ∅) clock0 0 [] in
  file_active (w_log w) = true /\
  ready (w_log w) /\
  (fileName (w_log w) ∉ denied (w_fs w)) /\
  exists w' : World,
    run true (calls [(MWarnf, "disk at %d%%", [VInt 91])] ++ [ATick]) w
    = Ret tt w' /\
    files (w_fs w') !! "/tmp/x.log"
    = Some ("[WARN] 05/03/2024 07:08:09.123: disk at 91%" +:+ newline) /\
    bufferFile (w_log w') = Some "".
Proof.
  intros w.
  assert (Hready : ready (w_log w)) by (split; reflexivity).
  assert (Hden : fileName (w_log w) ∉ denied (w_fs w))
    by (change ("/tmp/x.log" ∉ (∅ : gset string)); apply not_elem_of_empty).
  split; [reflexivity |]. split; [exact Hready |]. split; [exact Hden |].
  destruct (flush_writes_buffered_lines [(MWarnf, "disk at %d%%", [VInt 91])]
              w "" eq_refl Hready eq_refl Hden ltac:(discriminate))
    as (w' & R & Hfile & Hbuf & _).
  exists w'. split; [exact R |]. split; [exact Hfile | exact Hbuf].
Defined.

(** ** Consecutive ticks *)

(** X15: two ticks in a row on a logger with a buffer.  Both return; the
    second finds the buffer empty, so it does not call [WriteFile] and leaves
    the logger and the file system as the first tick left them: a file written
    by the first tick is not emptied by the second. *)
Theorem second_tick_is_idle (w : World) (buf : string) :
  bufferFile (w_log w) = Some buf ->
  muxFile (w_log w) = false ->
  exists w1 w2 : World,
    flushLogFile_tick w = Ret tt w1 /\
    flushLogFile_tick w1 = Ret tt w2 /\
    flushLogFile 2 w = Ret tt w2 /\
    w_log w2 = w_log w1 /\
    w_fs w2 = w_fs w1 /\
    w_trace w2
    = (w_trace w1 ++ [EvLock MuxFile; EvBufferReset; EvUnlock MuxFile])%list.
Proof.
  intros Hb Hm.
  pose proof (flushLogFile_tick_returns w buf Hb Hm) as R1.
  assert (R2 : flushLogFile_tick (after_tick w buf)
               = Ret tt (after_tick (after_tick w buf) "")).
  { apply flushLogFile_tick_returns; [reflexivity | exact Hm]. }
  exists (after_tick w buf), (after_tick (after_tick w buf) "").
  split; [exact R1 |]. split; [exact R2 |].
  split; [cbn [flushLogFile]; unfold mbind, M_bind; rewrite R1, R2; reflexivity |].
  repeat split.
Qed.

Lemma second_tick_is_idle_witness :
  let w := mkWorld
             (mkLog false true false false false "/tmp/x.log" (Some "line") None)
             empty_fs clock0 0 [] in
  bufferFile (w_log w) = Some "line" /\
  muxFile (w_log w) = false /\
  exists w2 : World,
    flushLogFile 2 w = Ret tt w2 /\
    files (w_fs w2) !! "/tmp/x.log" = Some "line".
Proof.
  intros w. split; [reflexivity |]. split; [reflexivity |].
  destruct (second_tick_is_idle w "line" eq_refl eq_refl)
    as (w1 & w2 & R1 & _ & R & _ & Hfs & _).
  exists w2. split; [exact R |]. rewrite Hfs.
  assert (E : Ret tt w1 = Ret tt (after_tick w "line"))
    by (rewrite <- R1; apply flushLogFile_tick_returns; reflexivity).
  injection E as ->. vm_compute. reflexivity.
Defined.

(** X16: a flush task on a logger whose buffer pointer is nil.  The first
    tick returns holding the file mutex and changes nothing else; from then
    on the task is stuck, every second tick blocking at [Lock].  The calls
    of the logger's methods keep returning, since with a nil buffer the file
    sink is skipped and the file mutex is not taken. *)
Theorem nil_buffer_flush_task_stalls `{F : fmt.Formatter}
        (w : World) (n : nat)
        (m : method) (format : string) (args : list value) :
  bufferFile (w_log w) = None ->
  muxFile (w_log w) = false ->
  (enableConsole (w_log w) = true -> muxConsole (w_log w) = false) ->
  exists w1 w2 : World,
    flushLogFile_tick w = Ret tt w1 /\
    muxFile (w_log w1) = true /\
    w_fs w1 = w_fs w /\
    w_trace w1 = (w_trace w ++ [EvLock MuxFile])%list /\
    flushLogFile (S (S n)) w = Blocked w1 /\
    call m format args w1 = Ret tt w2 /\
    muxFile (w_log w2) = true.
Proof.
  intros Hb Hm Hc.
  pose proof (flushLogFile_tick_nil w Hb Hm) as R1.
  set (w1 := emit (EvLock MuxFile) (set_log (set_muxFile true (w_log w)) w)) in *.
  assert (Hready : ready (w_log w1)).
  { subst w1. destruct w as [l fs clk r tr].
    destruct l as [ec ef es mc mf fn bf ls]. cbn in Hb, Hc |- *. subst bf.
    split; cbn; [exact Hc |].
    unfold file_active. cbn. rewrite andb_false_r. discriminate. }
  exists w1, (after_output w1 (dispatched m) (passed_format m format) args).
  split; [exact R1 |].
  split; [subst w1; destruct (w_log w); reflexivity |].
  split; [reflexivity |]. split; [reflexivity |].
  split.
  { cbn [flushLogFile]. unfold mbind, M_bind. rewrite R1.
    rewrite flushLogFile_tick_blocked; [reflexivity |].
    subst w1; destruct (w_log w); reflexivity. }
  split; [now apply call_returns |].
  unfold after_output.
  assert (Ef : file_active (w_log w1) = false).
  { subst w1. destruct w as [l fs clk r tr].
    destruct l as [ec ef es mc mf fn bf ls]. cbn in Hb |- *. subst bf.
    unfold file_active. cbn. apply andb_false_r. }
  rewrite Ef. subst w1. destruct (w_log w); reflexivity.
Qed.

Lemma nil_buffer_flush_task_stalls_witness :
  let w := start (mkLog true true false false false "/tmp/x.log" None None)
                 empty_fs clock0 in
  bufferFile (w_log w) = None /\
  muxFile (w_log w) = false /\
  muxConsole (w_log w) = false /\
  exists w1 w2 : World,
    flushLogFile 5 w = Blocked w1 /\
    w_trace w1 = [EvLock MuxFile] /\
    call MInfo "" [VString "a"] w1 = Ret tt w2 /\
    muxFile (w_log w2) = true.
Proof.
  intros w. split; [reflexivity |]. split; [reflexivity |].
  split; [reflexivity |].
  destruct (nil_buffer_flush_task_stalls w 3 MInfo "" [VString "a"]
              eq_refl eq_refl (fun _ => eq_refl))
    as (w1 & w2 & _ & _ & _ & Htr & Hblock & Hcall & Hm).
  exists w1, w2. split; [exact Hblock |]. split; [exact Htr |].
  split; [exact Hcall | exact Hm].
Defined.
